(** * streetartcities2gpx: merging JSON item lists into one GPX 1.1 file

    A shallow embedding of [streetartcities2gpx.py].  Python values are the
    values [json.load] returns, exceptions are results, the file system and
    the network are a function from a source to what loading it gives, and
    the clock is the text [build_gpx] reads from it. *)

From Stdlib Require Import ZArith List String Ascii Bool Lia DecimalString SpecFloat.
Import ListNotations.
Open Scope string_scope.

(** ** Exceptions and results *)

Inductive exn : Set :=
| AttributeError
| TypeError
| OverflowError
| ValueError
| IndexError.

Inductive result (A : Type) : Type :=
| Ok (a : A)
| Raise (e : exn).
Arguments Ok {A} a.
Arguments Raise {A} e.

Definition bind {A B : Type} (c : result A) (k : A -> result B) : result B :=
  match c with
  | Ok a => k a
  | Raise e => Raise e
  end.

Notation "x <- c ;; k" := (bind c (fun x => k))
  (at level 61, c at next level, right associativity).

Fixpoint map_result {A B : Type} (f : A -> result B) (l : list A) : result (list B) :=
  match l with
  | [] => Ok []
  | x :: l' => y <- f x ;; ys <- map_result f l' ;; Ok (y :: ys)
  end.

(** ** Values

    What [json.load] returns: [None], [bool], [int], [float], [str], [list]
    and [dict].  A float is its binary64 value.  A dict is the list of its
    members in insertion order; a dict holds one value per key, and a lookup
    takes the first binding of the key. *)

#[warnings="-register-all"]
Inductive json : Type :=
| JNull
| JBool (b : bool)
| JInt (z : Z)
| JFloat (f : spec_float)
| JStr (s : string)
| JList (l : list json)
| JObj (d : list (string * json)).

(** [bool(v)] *)
Definition truthy (v : json) : bool :=
  match v with
  | JNull => false
  | JBool b => b
  | JInt z => negb (z =? 0)%Z
  | JFloat (S754_zero _) => false
  | JFloat _ => true
  | JStr s => negb (s =? "")
  | JList l => match l with [] => false | _ => true end
  | JObj d => match d with [] => false | _ => true end
  end.

(** [a or b] *)
Definition py_or (a b : json) : json := if truthy a then a else b.

(** [v is None] *)
Definition is_none (v : json) : bool :=
  match v with JNull => true | _ => false end.

(** [isinstance(v, (int, float))]: [bool] is a subclass of [int]. *)
Definition is_number (v : json) : bool :=
  match v with
  | JBool _ | JInt _ | JFloat _ => true
  | _ => false
  end.

(** [isinstance(v, list)] *)
Definition is_list (v : json) : bool :=
  match v with JList _ => true | _ => false end.

Fixpoint dict_get (d : list (string * json)) (k : string) : json :=
  match d with
  | [] => JNull
  | (k', v) :: d' => if k' =? k then v else dict_get d' k
  end.

(** [v.get(k)]: only a dict has a [get]. *)
Definition get (v : json) (k : string) : result json :=
  match v with
  | JObj d => Ok (dict_get d k)
  | _ => Raise AttributeError
  end.

(** ** Text *)

Definition NL : string := String "010"%char "".
Definition DQ : string := String "034"%char "".

(** [sep.join(l)] on strings *)
Definition join (sep : string) (l : list string) : string := String.concat sep l.

(** [str.replace] of one character by a text *)
Fixpoint replace_char (c : ascii) (r : string) (s : string) : string :=
  match s with
  | "" => ""
  | String a s' =>
      if Ascii.eqb a c then r ++ replace_char c r s'
      else String a (replace_char c r s')
  end.

(** [html.escape(s, quote=True)] *)
Definition xmlesc (s : string) : string :=
  let s := replace_char "&" "&amp;" s in
  let s := replace_char "<" "&lt;" s in
  let s := replace_char ">" "&gt;" s in
  let s := replace_char "034" "&quot;" s in
  replace_char "'" "&#x27;" s.

Definition lower_char (c : ascii) : ascii :=
  let n := nat_of_ascii c in
  if (65 <=? n)%nat && (n <=? 90)%nat then ascii_of_nat (n + 32) else c.

(** [str.lower] on the ASCII letters, which decide [startswith("http://")]. *)
Fixpoint lower (s : string) : string :=
  match s with
  | "" => ""
  | String c s' => String (lower_char c) (lower s')
  end.

(** [str(z)] for an int ([json.load] returns no int too long for [str]) *)
Definition str_int (z : Z) : string := NilEmpty.string_of_int (Z.to_int z).

(** [float(z)]: the nearest binary64, ties to even; too large an int raises. *)
Definition float_of_int (z : Z) : result spec_float :=
  match binary_normalize 53 1024 z 0 false with
  | S754_infinity _ => Raise OverflowError
  | f => Ok f
  end.

(** [s.count(sub)]: the occurrences of [sub] met from the left, none
    overlapping an earlier one. *)
Fixpoint count_from (sub s : string) (skip : nat) : nat :=
  match s with
  | "" => 0
  | String _ s' =>
      match skip with
      | S k => count_from sub s' k
      | O =>
          if prefix sub s then S (count_from sub s' (length sub - 1))
          else count_from sub s' 0
      end
  end.

Definition count (s sub : string) : nat :=
  if sub =? "" then S (length s) else count_from sub s 0.

(** ** Paths ([pathlib.PurePosixPath])

    A path is its root (empty, one slash or two) and its parts; the parts
    hold no slash, and none is empty or a single dot. *)

Record Path : Type := mkPath { root : string; parts : list string }.

(** [s.split(c)] *)
Fixpoint split_on (c : ascii) (s : string) : list string :=
  match s with
  | "" => [""]
  | String a s' =>
      if Ascii.eqb a c then "" :: split_on c s'
      else match split_on c s' with
           | h :: t => String a h :: t
           | [] => [String a ""]
           end
  end.

Definition path_root (s : string) : string :=
  match s with
  | String "/" (String "/" (String "/" _)) => "/"
  | String "/" (String "/" _) => "//"
  | String "/" _ => "/"
  | _ => ""
  end.

Definition is_part (x : string) : bool := negb (x =? "") && negb (x =? ".").

(** [Path(s)] *)
Definition path (s : string) : Path :=
  {| root := path_root s; parts := filter is_part (split_on "/" s) |}.

(** [str(p)] *)
Definition path_str (p : Path) : string :=
  match root p, parts p with
  | "", [] => "."
  | r, ps => r ++ join "/" ps
  end.

(** [p.name] *)
Definition name (p : Path) : string := last (parts p) "".

(** [s.rfind(c)] *)
Fixpoint rfind (c : ascii) (s : string) : option nat :=
  match s with
  | "" => None
  | String a s' =>
      match rfind c s' with
      | Some i => Some (S i)
      | None => if Ascii.eqb a c then Some 0 else None
      end
  end.

(** Where the suffix of a name starts: at its last dot, unless that dot is
    the first or the last character (the rule of Python 3.13 and before). *)
Definition suffix_at (nm : string) : option nat :=
  match rfind "." nm with
  | Some i => if (0 <? i)%nat && (i <? length nm - 1)%nat then Some i else None
  | None => None
  end.

(** [p.suffix] *)
Definition suffix (p : Path) : string :=
  match suffix_at (name p) with
  | Some i => substring i (length (name p) - i) (name p)
  | None => ""
  end.

(** [p.stem] *)
Definition stem (p : Path) : string :=
  match suffix_at (name p) with
  | Some i => substring 0 i (name p)
  | None => name p
  end.

(** [c in s] for a character *)
Fixpoint has_char (c : ascii) (s : string) : bool :=
  match s with
  | "" => false
  | String a s' => Ascii.eqb a c || has_char c s'
  end.

(** The path with the last part replaced by [nm]. *)
Definition sibling (p : Path) (nm : string) : Path :=
  {| root := root p; parts := removelast (parts p) ++ [nm] |}.

(** [p.with_name(nm)] *)
Definition with_name (p : Path) (nm : string) : result Path :=
  if name p =? "" then Raise ValueError
  else if (nm =? "") || (nm =? ".") || has_char "/" nm then Raise ValueError
  else Ok (sibling p nm).

(** [p.with_suffix(suf)] *)
Definition with_suffix (p : Path) (suf : string) : result Path :=
  if has_char "/" suf then Raise ValueError
  else if (negb (suf =? "") && negb (prefix "." suf)) || (suf =? ".") then Raise ValueError
  else if name p =? "" then Raise ValueError
  else
    let old_suffix := suffix p in
    let nm :=
      if old_suffix =? "" then name p ++ suf
      else substring 0 (length (name p) - length old_suffix) (name p) ++ suf in
    Ok (sibling p nm).

(** [bool(x)] of an optional text: [None] and the empty text are false. *)
Definition given (x : option string) : bool :=
  match x with
  | Some e => negb (e =? "")
  | None => false
  end.

Definition text_of (x : option string) : string :=
  match x with
  | Some e => e
  | None => ""
  end.

(** [src.lower().startswith(("http://", "https://"))] *)
Definition is_url (src : string) : bool :=
  prefix "http://" (lower src) || prefix "https://" (lower src).

(** ** Members of a set

    A set tells its members apart by [==]: a text by its characters, a number
    by its value, whichever of [bool], [int] and [float] holds it.  A number
    is kept as [m * 2 ^ e] with [m] odd, so equal values are equal terms.  A
    list or a dict cannot be hashed. *)

Inductive num_val : Set :=
| NumNan
| NumInf (neg : bool)
| NumDyadic (m : Z) (e : Z).

Fixpoint strip2 (p : positive) (e : Z) : positive * Z :=
  match p with
  | xO p' => strip2 p' (e + 1)%Z
  | _ => (p, e)
  end.

Definition dyadic (neg : bool) (m : positive) (e : Z) : num_val :=
  let (m', e') := strip2 m e in
  NumDyadic (if neg then Z.neg m' else Z.pos m') e'.

Definition num_of_int (z : Z) : num_val :=
  match z with
  | Z0 => NumDyadic 0 0
  | Z.pos p => dyadic false p 0
  | Z.neg p => dyadic true p 0
  end.

Definition num_of_float (f : spec_float) : num_val :=
  match f with
  | S754_zero _ => NumDyadic 0 0
  | S754_infinity s => NumInf s
  | S754_nan => NumNan
  | S754_finite s m e => dyadic s m e
  end.

Inductive hval : Set :=
| HNone
| HStr (s : string)
| HNum (n : num_val).

(** What [hash(v)] and [==] see of a value. *)
Definition hash_value (v : json) : result hval :=
  match v with
  | JNull => Ok HNone
  | JBool b => Ok (HNum (num_of_int (if b then 1 else 0)))
  | JInt z => Ok (HNum (num_of_int z))
  | JFloat f => Ok (HNum (num_of_float f))
  | JStr s => Ok (HStr s)
  | JList _ | JObj _ => Raise TypeError
  end.

(** The tuple [item_dedup_key] returns. *)
Inductive dedup_key : Type :=
| KeyId (id : string)
| KeyGeo (lat lon : option string) (title : json).

(** The tuple as a member of [seen]. *)
Inductive set_key : Set :=
| SetId (id : string)
| SetGeo (lat lon : option string) (title : hval).

Definition hash_key (k : dedup_key) : result set_key :=
  match k with
  | KeyId s => Ok (SetId s)
  | KeyGeo lat lon title => t <- hash_value title ;; Ok (SetGeo lat lon t)
  end.

Definition set_key_eq_dec (a b : set_key) : {a = b} + {a <> b}.
Proof.
  repeat decide equality; auto using string_dec, Z.eq_dec, bool_dec.
Defined.

(** [k in seen] *)
Definition key_in (k : set_key) (seen : list set_key) : bool :=
  if in_dec set_key_eq_dec k seen then true else false.

(** ** Runs *)

(** [argparse]'s namespace *)
Record Args : Type := {
  sources : list string;
  output : option string;
  no_dedup : bool
}.

(** What [load_input] does on a source: it raises, with a message, or it
    returns the parsed document. *)
Inductive loaded : Type :=
| LoadError (e : string)
| Loaded (data : json).

Definition World : Type := string -> loaded.

(** How a stretch of [main] ends: it goes on with a value, it calls
    [sys.exit] after a line on standard error, or an exception leaves it. *)
Inductive proc (A : Type) : Type :=
| Return (a : A)
| SysExit (code : Z) (stderr : string)
| Uncaught (e : exn).
Arguments Return {A} a.
Arguments SysExit {A} code stderr.
Arguments Uncaught {A} e.

(** The file [main] writes and the count it prints. *)
Record Saved : Type := {
  out_path : Path;
  gpx_text : string;
  waypoints : nat
}.

(** The exit status of a run.  A run that reaches the write is read as a run
    that ends well: opening the file, writing it and printing the last line
    are the runtime's, and are taken not to fail. *)
Definition exit_code {A : Type} (r : proc A) : Z :=
  match r with
  | Return _ => 0
  | SysExit c _ => c
  | Uncaught _ => 1
  end.

(** The file a run leaves, under the same reading: the whole text at the
    path [main] opens, and no file for a run that does not reach the write. *)
Definition file_written (r : proc Saved) : option (Path * string) :=
  match r with
  | Return s => Some (out_path s, gpx_text s)
  | _ => None
  end.

(** ** Reading a text for its markup *)

Fixpoint all_chars (p : ascii -> bool) (s : string) : bool :=
  match s with
  | "" => true
  | String c s' => p c && all_chars p s'
  end.

Fixpoint keep_chars (p : ascii -> bool) (s : string) : string :=
  match s with
  | "" => ""
  | String c s' => if p c then String c (keep_chars p s') else keep_chars p s'
  end.

(** The characters that delimit XML markup and attribute values. *)
Definition xml_special (c : ascii) : bool :=
  Ascii.eqb c "<" || Ascii.eqb c ">" || Ascii.eqb c "034" || Ascii.eqb c "'".

(** The markup characters of a text, in order. *)
Definition markup (s : string) : string := keep_chars xml_special s.

Definition entity_tail (s : string) : bool :=
  prefix "amp;" s || prefix "lt;" s || prefix "gt;" s
  || prefix "quot;" s || prefix "#x27;" s.

(** Every ampersand starts one of the five references [html.escape] writes. *)
Fixpoint amp_escaped (s : string) : bool :=
  match s with
  | "" => true
  | String c s' => (if Ascii.eqb c "&" then entity_tail s' else true) && amp_escaped s'
  end.

(** No markup character, and no ampersand but in a reference. *)
Definition escaped (s : string) : bool :=
  all_chars (fun c => negb (xml_special c)) s && amp_escaped s.

(** Neither a markup character nor an ampersand. *)
Definition plain_char (c : ascii) : bool :=
  negb (xml_special c) && negb (Ascii.eqb c "&").

(** The text [html.escape] leaves as it is. *)
Definition xml_plain (s : string) : bool := all_chars plain_char s.

(** Reading back the five references [html.escape] writes; [skip] counts the
    characters of a reference still to pass over. *)
Fixpoint unescape_from (s : string) (skip : nat) : string :=
  match s with
  | "" => ""
  | String c s' =>
      match skip with
      | S k => unescape_from s' k
      | O =>
          if Ascii.eqb c "&" then
            if prefix "amp;" s' then String "&" (unescape_from s' 4)
            else if prefix "lt;" s' then String "<" (unescape_from s' 3)
            else if prefix "gt;" s' then String ">" (unescape_from s' 3)
            else if prefix "quot;" s' then String "034" (unescape_from s' 5)
            else if prefix "#x27;" s' then String "'" (unescape_from s' 5)
            else String c (unescape_from s' 0)
          else String c (unescape_from s' 0)
      end
  end.

Definition unescape (s : string) : string := unescape_from s 0.

(** [l] is [l'] with some of its elements left out, the others in order. *)
Inductive subsequence {A : Type} : list A -> list A -> Prop :=
| subsequence_nil : subsequence [] []
| subsequence_skip (x : A) (l l' : list A) :
    subsequence l l' -> subsequence l (x :: l')
| subsequence_keep (x : A) (l l' : list A) :
    subsequence l l' -> subsequence (x :: l) (x :: l').

(** The text holds no [<]. *)
Definition no_lt (s : string) : bool :=
  all_chars (fun c => negb (Ascii.eqb c "<")) s.

(** Every [<] is followed, in the text, by a character other than [w]: no
    occurrence of [<wpt ] starts in the text. *)
Fixpoint no_wpt_start (s : string) : bool :=
  match s with
  | "" => true
  | String c s' =>
      (if Ascii.eqb c "<"
       then match s' with String d _ => negb (Ascii.eqb d "w") | "" => false end
       else true) && no_wpt_start s'
  end.

(** ** The runtime's renderings

    The texts CPython gives for a float and for a str inside a container, and
    the path [urllib.parse.urlparse] reads off a URL, are the runtime's: the
    program is modelled over them. *)

Class PyRuntime : Type := {
  (** [repr(f)] of a float, the shortest text that reads back as [f] *)
  float_repr : spec_float -> string;
  (** [format(f, ".7f")] of a float *)
  float_fmt7 : spec_float -> string;
  (** [repr(s)] of a str *)
  str_repr : string -> string;
  (** [urlparse(url).path] *)
  urlparse_path : string -> result string
}.

(** ** A runtime to run the model on

    CPython's renderings, written out: the float texts in full, [repr] of a
    str for text whose characters past ASCII are printable, and [urlparse]
    for an http or https URL.  The properties below hold for every runtime;
    this one evaluates the program on concrete inputs. *)

Fixpoint zeros (n : nat) : string :=
  match n with
  | O => ""
  | S k => String "0" (zeros k)
  end.

(** [num / den] rounded to the nearest integer, ties to even. *)
Definition div_half_even (num den : Z) : Z :=
  let q := (num / den)%Z in
  let r := (num mod den)%Z in
  if (den <? 2 * r)%Z then (q + 1)%Z
  else if (2 * r =? den)%Z then (if Z.even q then q else (q + 1)%Z)
  else q.

(** [m * 2 ^ e] to seven decimals. *)
Definition fixed7 (m : positive) (e : Z) : string :=
  let n :=
    if (0 <=? e)%Z then (Z.pos m * 2 ^ e * 10 ^ 7)%Z
    else div_half_even (Z.pos m * 10 ^ 7) (2 ^ (- e)) in
  let frac := str_int (n mod 10 ^ 7) in
  str_int (n / 10 ^ 7) ++ "." ++ zeros (7 - length frac) ++ frac.

Definition ref_float_fmt7 (f : spec_float) : string :=
  match f with
  | S754_zero s => (if s then "-" else "") ++ "0.0000000"
  | S754_infinity s => (if s then "-" else "") ++ "inf"
  | S754_nan => "nan"
  | S754_finite s m e => (if s then "-" else "") ++ fixed7 m e
  end.

(** The multiple of [10 ^ q] nearest to [m * 2 ^ e] among those that read
    back as it, when there is one. *)
Definition digits_at (m e q : Z) : option Z :=
  let closer := (m =? 2 ^ 52)%Z && (-1074 <? e)%Z in
  let lo := (if closer then 4 * m - 1 else 4 * m - 2)%Z in
  let hi := (4 * m + 2)%Z in
  let a := (2 ^ Z.max (e - 2) 0 * 10 ^ Z.max (- q) 0)%Z in
  let b := (2 ^ Z.max (2 - e) 0 * 10 ^ Z.max q 0)%Z in
  let d_lo :=
    let c := ((lo * a + b - 1) / b)%Z in
    if Z.even m then c else if (c * b =? lo * a)%Z then (c + 1)%Z else c in
  let d_hi :=
    let c := ((hi * a) / b)%Z in
    if Z.even m then c else if (c * b =? hi * a)%Z then (c - 1)%Z else c in
  if (d_lo <=? d_hi)%Z && (0 <? d_hi)%Z
  then Some (Z.max d_lo (Z.min d_hi (div_half_even (4 * m * a) b)))
  else None.

Fixpoint shortest_from (fuel : nat) (m e q : Z) : Z * Z :=
  match fuel with
  | O => (0, 0)%Z
  | S k =>
      match digits_at m e q with
      | Some d => (d, q)
      | None => shortest_from k m e (q - 1)%Z
      end
  end.

(** The shortest [d * 10 ^ q] that reads back as [m * 2 ^ e]. *)
Definition shortest (m : positive) (e : Z) : Z * Z :=
  let l := (Z.log2 (4 * Z.pos m + 2) + (e - 2) + 1)%Z in
  shortest_from 40 (Z.pos m) e (l * 30103 / 100000 + 1)%Z.

Definition repr_finite (m : positive) (e : Z) : string :=
  let (d, q) := shortest m e in
  let ds := str_int d in
  let n := Z.of_nat (length ds) in
  let decpt := (n + q)%Z in
  if (decpt <=? -4)%Z || (16 <? decpt)%Z then
    let ex := (decpt - 1)%Z in
    let exs := str_int (Z.abs ex) in
    substring 0 1 ds
    ++ (if (1 <? n)%Z then "." ++ substring 1 (length ds - 1) ds else "")
    ++ "e" ++ (if (ex <? 0)%Z then "-" else "+")
    ++ zeros (2 - length exs) ++ exs
  else if (decpt <=? 0)%Z then
    "0." ++ zeros (Z.to_nat (- decpt)) ++ ds
  else if (n <=? decpt)%Z then
    ds ++ zeros (Z.to_nat (decpt - n)) ++ ".0"
  else
    substring 0 (Z.to_nat decpt) ds ++ "."
    ++ substring (Z.to_nat decpt) (length ds - Z.to_nat decpt) ds.

Definition ref_float_repr (f : spec_float) : string :=
  match f with
  | S754_zero s => (if s then "-" else "") ++ "0.0"
  | S754_infinity s => (if s then "-" else "") ++ "inf"
  | S754_nan => "nan"
  | S754_finite s m e => (if s then "-" else "") ++ repr_finite m e
  end.

Definition hex_digit (n : nat) : ascii :=
  if (n <? 10)%nat then ascii_of_nat (48 + n) else ascii_of_nat (87 + n).

Definition repr_char (quote : ascii) (c : ascii) : string :=
  let n := nat_of_ascii c in
  if Ascii.eqb c "\" then "\\"
  else if Ascii.eqb c quote then String "\" (String c "")
  else if (n =? 9)%nat then "\t"
  else if (n =? 10)%nat then "\n"
  else if (n =? 13)%nat then "\r"
  else if (n <? 32)%nat || (n =? 127)%nat
  then "\x" ++ String (hex_digit (n / 16)) (String (hex_digit (n mod 16)) "")
  else String c "".

Fixpoint repr_chars (quote : ascii) (s : string) : string :=
  match s with
  | "" => ""
  | String c s' => repr_char quote c ++ repr_chars quote s'
  end.

Definition ref_str_repr (s : string) : string :=
  let quote : ascii :=
    if has_char "'" s && negb (has_char "034" s) then "034"%char else "'"%char in
  String quote (repr_chars quote s ++ String quote "").

(** The text before the first character [stop] accepts, and the text from it. *)
Fixpoint break_at (stop : ascii -> bool) (s : string) : string * string :=
  match s with
  | "" => ("", "")
  | String c s' =>
      if stop c then ("", s)
      else let (a, b) := break_at stop s' in (String c a, b)
  end.

Fixpoint remove_chars (drop : ascii -> bool) (s : string) : string :=
  match s with
  | "" => ""
  | String c s' => if drop c then remove_chars drop s' else String c (remove_chars drop s')
  end.

Definition one_of (cs : string) (c : ascii) : bool := has_char c cs.

(** [urlparse(url).path] for an http or https URL with a plain host.  Of the
    errors [urlparse] raises this one keeps the unpaired bracket; a
    bracketed host that is no address and a host that changes under NFKC
    are left to the runtime. *)
Definition ref_urlparse_path (url : string) : result string :=
  let url := remove_chars (fun c => let n := nat_of_ascii c in
                                    (n =? 9)%nat || (n =? 10)%nat || (n =? 13)%nat) url in
  let rest := snd (break_at (one_of ":") url) in
  let rest := substring 1 (length rest - 1) rest in
  let (netloc, rest) :=
    if prefix "//" rest
    then break_at (one_of "/?#") (substring 2 (length rest - 2) rest)
    else ("", rest) in
  if xorb (has_char "[" netloc) (has_char "]" netloc) then Raise ValueError else
  let rest := fst (break_at (one_of "#") rest) in
  let rest := fst (break_at (one_of "?") rest) in
  match rfind "/" rest with
  | Some i =>
      Ok (substring 0 i rest
          ++ fst (break_at (one_of ";") (substring i (length rest - i) rest)))
  | None => Ok (fst (break_at (one_of ";") rest))
  end.

Definition reference_runtime : PyRuntime := {|
  float_repr := ref_float_repr;
  float_fmt7 := ref_float_fmt7;
  str_repr := ref_str_repr;
  urlparse_path := ref_urlparse_path
|}.

Section Program.
Context {RT : PyRuntime}.

(** [repr(v)] *)
Fixpoint py_repr (v : json) : string :=
  match v with
  | JNull => "None"
  | JBool true => "True"
  | JBool false => "False"
  | JInt z => str_int z
  | JFloat f => float_repr f
  | JStr s => str_repr s
  | JList l => "[" ++ join ", " (map py_repr l) ++ "]"
  | JObj d =>
      "{" ++ join ", " (map (fun kv => str_repr (fst kv) ++ ": " ++ py_repr (snd kv)) d) ++ "}"
  end.

(** [str(v)], which is also [format(v, "")] and what an f-string field gives *)
Definition py_str (v : json) : string :=
  match v with
  | JStr s => s
  | _ => py_repr v
  end.

(** [format(v, ".7f")] of a number: an int goes through [float]. *)
Definition format_7f (v : json) : result string :=
  match v with
  | JBool b => f <- float_of_int (if b then 1 else 0) ;; Ok (float_fmt7 f)
  | JInt z => f <- float_of_int z ;; Ok (float_fmt7 f)
  | JFloat f => Ok (float_fmt7 f)
  | _ => Raise TypeError
  end.

(** [sep.join(l)] on values: an item that is no str raises. *)
Fixpoint join_values (sep : string) (l : list json) : result string :=
  match l with
  | [] => Ok ""
  | JStr s :: l' =>
      match l' with
      | [] => Ok s
      | _ => r <- join_values sep l' ;; Ok (s ++ sep ++ r)
      end
  | _ :: _ => Raise TypeError
  end.

(** [esc] *)
Definition esc (s : json) : string :=
  xmlesc (if is_none s then "" else py_str s).

(** The opening tag of a waypoint, [  <wpt lat="{lat}" lon="{lon}">] and
    the end of its line. *)
Definition wpt_open (lat lon : string) : string :=
  "  <wpt lat=" ++ DQ ++ lat ++ DQ ++ " lon=" ++ DQ ++ lon ++ DQ ++ ">" ++ NL.

(** The blocks of [build_wpt] and what its f-string writes after the opening
    tag. *)
Definition wpt_body (title href marker typ status site_id iid : json) (desc : string)
  : string :=
  let link_block :=
    if truthy href
    then NL ++ "    <link href=" ++ DQ ++ esc href ++ DQ ++ "><text>"
         ++ esc (py_or (py_or title iid) href) ++ "</text></link>"
    else "" in
  let ext_fields :=
    List.concat
      [ if truthy iid then ["<sa:id>" ++ esc iid ++ "</sa:id>"] else [];
        if truthy site_id then ["<sa:siteId>" ++ esc site_id ++ "</sa:siteId>"] else [];
        if truthy status then ["<sa:status>" ++ esc status ++ "</sa:status>"] else [];
        if truthy marker then ["<sa:marker>" ++ esc marker ++ "</sa:marker>"] else [] ] in
  let extensions_block :=
    match ext_fields with
    | [] => ""
    | _ => NL ++ "    <extensions>" ++ NL ++ "      " ++ join "" ext_fields
           ++ NL ++ "    </extensions>"
    end in
  let type_block :=
    if truthy typ then NL ++ "    <type>" ++ esc typ ++ "</type>" else "" in
  "    <name>" ++ esc (py_or (py_or title iid) (JStr "Untitled")) ++ "</name>"
  ++ link_block ++ NL
  ++ "    <desc>" ++ esc (JStr desc) ++ "</desc>"
  ++ type_block
  ++ extensions_block ++ NL
  ++ "  </wpt>".

(** [build_wpt] *)
Definition build_wpt (item : json) : result (option string) :=
  loc0 <- get item "location" ;;
  let loc := py_or loc0 (JObj []) in
  lat <- get loc "lat" ;;
  lon <- get loc "lng" ;;
  if negb (is_number lat) || negb (is_number lon) then Ok None else
  title0 <- get item "title" ;;
  let title := py_or title0 (JStr "") in
  href0 <- get item "href" ;;
  let href := py_or href0 (JStr "") in
  marker0 <- get item "marker" ;;
  let marker := py_or marker0 (JStr "") in
  addr0 <- get loc "address" ;;
  let addr := py_or addr0 (JStr "") in
  typ0 <- get item "type" ;;
  let typ := py_or typ0 (JStr "") in
  status0 <- get item "status" ;;
  let status := py_or status0 (JStr "") in
  site_id0 <- get item "siteId" ;;
  let site_id := py_or site_id0 (JStr "") in
  iid0 <- get item "id" ;;
  let iid := py_or iid0 (JStr "") in
  let desc_parts :=
    List.app (if truthy addr then [addr] else [])
             (if truthy marker then [JStr ("marker: " ++ py_str marker)] else []) in
  desc <- join_values NL desc_parts ;;
  Ok (Some (wpt_open (py_str lat) (py_str lon)
            ++ wpt_body title href marker typ status site_id iid desc)).

(** The [if w] of [build_gpx]'s comprehension: [None] and the empty text go. *)
Definition kept_wpt (w : option string) : list string :=
  match w with
  | Some s => if s =? "" then [] else [s]
  | None => []
  end.

Definition gpx_head (now_iso : string) (gen : json) : string :=
  "<?xml version=" ++ DQ ++ "1.0" ++ DQ ++ " encoding=" ++ DQ ++ "UTF-8" ++ DQ ++ "?>" ++ NL
  ++ "<gpx version=" ++ DQ ++ "1.1" ++ DQ ++ NL
  ++ "     creator=" ++ DQ ++ esc gen ++ DQ ++ NL
  ++ "     xmlns=" ++ DQ ++ "http://www.topografix.com/GPX/1/1" ++ DQ ++ NL
  ++ "     xmlns:xsi=" ++ DQ ++ "http://www.w3.org/2001/XMLSchema-instance" ++ DQ ++ NL
  ++ "     xmlns:sa=" ++ DQ ++ "https://streetart.media/ns/1.0" ++ DQ ++ NL
  ++ "     xsi:schemaLocation=" ++ DQ ++ "http://www.topografix.com/GPX/1/1" ++ NL
  ++ "                         http://www.topografix.com/GPX/1/1/gpx.xsd" ++ DQ ++ ">" ++ NL
  ++ "  <metadata>" ++ NL
  ++ "    <time>" ++ esc (JStr now_iso) ++ "</time>" ++ NL
  ++ "  </metadata>" ++ NL.

Definition gpx_tail : string := NL ++ "</gpx>" ++ NL.

(** [build_gpx]; [now_iso] is the text of the clock's reading. *)
Definition build_gpx (now_iso : string) (items : list json) (meta_any : json)
  : result string :=
  gen0 <- get (py_or meta_any (JObj [])) "generator" ;;
  let gen := py_or gen0 (JStr "json2gpx") in
  let head := gpx_head now_iso gen in
  ws <- map_result build_wpt items ;;
  let wpts := flat_map kept_wpt ws in
  Ok (head ++ join NL wpts ++ gpx_tail).

(** [derive_output_path] *)
Definition derive_output_path (srcs : list string) (explicit : option string)
  : result Path :=
  if given explicit then Ok (path (text_of explicit)) else
  match srcs with
  | [] => Raise IndexError
  | first :: _ =>
      if is_url first then
        parsed_path <- urlparse_path first ;;
        let stem0 := stem (path parsed_path) in
        let stem1 := if stem0 =? "" then "merged" else stem0 in
        Ok (if (1 <? List.length srcs)%nat
            then path (stem1 ++ "_merged.gpx")
            else path (stem1 ++ ".gpx"))
      else
        let p := path first in
        if (1 <? List.length srcs)%nat
        then with_name p (stem p ++ "_merged.gpx")
        else with_suffix p ".gpx"
  end.

(** [f"{v:.7f}" if isinstance(v, (int, float)) else None] *)
Definition coord_text (v : json) : result (option string) :=
  if is_number v then s <- format_7f v ;; Ok (Some s) else Ok None.

(** [item_dedup_key] *)
Definition item_dedup_key (item : json) : result dedup_key :=
  iid <- get item "id" ;;
  if negb (is_none iid) then Ok (KeyId (py_str iid)) else
  loc0 <- get item "location" ;;
  let loc := py_or loc0 (JObj []) in
  lat <- get loc "lat" ;;
  lon <- get loc "lng" ;;
  title0 <- get item "title" ;;
  let title := py_or title0 (JStr "") in
  lat7 <- coord_text lat ;;
  lon7 <- coord_text lon ;;
  Ok (KeyGeo lat7 lon7 title).

(** The key as [seen] holds it. *)
Definition set_key_of (item : json) : result set_key :=
  k <- item_dedup_key item ;; hash_key k.

(** The deduplication loop of [main], from the state it has reached. *)
Fixpoint dedup_loop (all_items : list json) (seen : list set_key) (deduped : list json)
  : result (list json) :=
  match all_items with
  | [] => Ok deduped
  | it :: rest =>
      h <- set_key_of it ;;
      if key_in h seen then dedup_loop rest seen deduped
      else dedup_loop rest (h :: seen) (deduped ++ [it])%list
  end.

Definition dedup (all_items : list json) : result (list json) :=
  dedup_loop all_items [] [].

(** The deduplication step of [main]: skipped under [--no-dedup]. *)
Definition merge (no_dedup : bool) (all_items : list json) : result (list json) :=
  if negb no_dedup then dedup all_items else Ok all_items.

(** The loop of [main] over the sources, from the state it has reached. *)
Fixpoint load_sources (w : World) (srcs : list string)
  (all_items : list json) (any_meta : json) : proc (list json * json) :=
  match srcs with
  | [] => Return (all_items, any_meta)
  | src :: rest =>
      match w src with
      | LoadError e => SysExit 1 ("Error reading " ++ src ++ ": " ++ e)
      | Loaded data =>
          match get data "items" with
          | Raise e => Uncaught e
          | Ok items0 =>
              match py_or items0 (JList []) with
              | JList items =>
                  match (if is_none any_meta then get data "@meta" else Ok any_meta) with
                  | Raise e => Uncaught e
                  | Ok any_meta' =>
                      load_sources w rest (all_items ++ items)%list any_meta'
                  end
              | _ => SysExit 2 (src ++ ": items[] missing or not a list")
              end
          end
      end
  end.

(** [main]; [w] is the world the sources are read from and [now_iso] the
    clock's reading.  [Return] is the run that reaches the write. *)
Definition main (w : World) (now_iso : string) (args : Args) : proc Saved :=
  match load_sources w (sources args) [] JNull with
  | SysExit c e => SysExit c e
  | Uncaught e => Uncaught e
  | Return (all_items, any_meta) =>
      match
        (all_items' <- merge (no_dedup args) all_items ;;
         gpx <- build_gpx now_iso all_items' any_meta ;;
         p <- derive_output_path (sources args) (output args) ;;
         Ok {| out_path := p; gpx_text := gpx; waypoints := count gpx "<wpt " |})
      with
      | Ok s => Return s
      | Raise e => Uncaught e
      end
  end.

(** ** Vocabulary of the properties *)

(** The ending of the derived name: [.gpx] for one source, [_merged.gpx]
    when others follow the first. *)
Definition ending (others : list string) : string :=
  match others with
  | [] => ".gpx"
  | _ :: _ => "_merged.gpx"
  end.

(** [item.get(k)] read as a total function: [None] off a dict. *)
Definition field (item : json) (k : string) : json :=
  match item with
  | JObj d => dict_get d k
  | _ => JNull
  end.

(** The item passes the check of [build_wpt]: a dict whose location gives a
    number for [lat] and for [lng]. *)
Definition has_coordinates (item : json) : bool :=
  match get item "location" with
  | Ok loc0 =>
      let loc := py_or loc0 (JObj []) in
      match get loc "lat", get loc "lng" with
      | Ok lat, Ok lon => is_number lat && is_number lon
      | _, _ => false
      end
  | Raise _ => false
  end.

(** The location of the item can be read: the item is a dict and its
    location, when it is true, is a dict; it is then that [loc.get] and
    [item.get] raise nothing. *)
Definition reads_location (item : json) : bool :=
  match item with
  | JObj d =>
      match py_or (dict_get d "location") (JObj []) with
      | JObj _ => true
      | _ => false
      end
  | _ => false
  end.

(** The items whose key is not in [seen] and is the key of no item before
    them in the list; [keys] are the keys of [items], position by position. *)
Fixpoint unseen (seen : list set_key) (items : list json) (keys : list set_key)
  : list json :=
  match items, keys with
  | it :: items', k :: keys' =>
      if key_in k seen then unseen seen items' keys'
      else it :: unseen (k :: seen) items' keys'
  | _, _ => []
  end.

(** The item at position [i] is the first with its key: the key is none of
    the keys of the [i] items before it. *)
Definition first_occurrence (keys : list set_key) (i : nat) : bool :=
  match nth_error keys i with
  | Some k => negb (key_in k (firstn i keys))
  | None => false
  end.

(** The items that are the first with their key, in the order of the list;
    [keys] are the keys of [items], position by position. *)
Definition keep_first_occurrences (items : list json) (keys : list set_key)
  : list json :=
  map snd
    (filter (fun p => first_occurrence keys (fst p))
            (combine (seq 0 (List.length items)) items)).

(** The [@meta] a source's document holds, [None] when it holds none. *)
Definition doc_meta (w : World) (src : string) : json :=
  match w src with
  | Loaded (JObj d) => dict_get d "@meta"
  | _ => JNull
  end.

(** The items a source's document holds, none for a document [main] does
    not take. *)
Definition doc_items (w : World) (src : string) : list json :=
  match w src with
  | Loaded (JObj d) =>
      match py_or (dict_get d "items") (JList []) with
      | JList l => l
      | _ => []
      end
  | _ => []
  end.

(** The first of the metas that is not [None]. *)
Fixpoint first_meta (metas : list json) : json :=
  match metas with
  | [] => JNull
  | m :: rest => if is_none m then first_meta rest else m
  end.

(** [load_input] succeeds on the source and its document passes the check
    on [items]. *)
Definition accepted (w : World) (src : string) : Prop :=
  exists d l, w src = Loaded (JObj d) /\ py_or (dict_get d "items") (JList []) = JList l.

(** The text of a float holds no [<]: CPython writes a float with digits, a
    sign, a point, an exponent mark, or as [inf] or [nan]. *)
Definition float_text_plain : Prop :=
  forall f : spec_float, no_lt (float_repr f) = true.

(** The text of a waypoint: an opening tag around two texts without [<],
    then a text in which no [<wpt ] starts. *)
Definition waypoint_text (w : string) : Prop :=
  exists lat lon body,
    w = wpt_open lat lon ++ body /\
    no_lt lat = true /\
    no_lt lon = true /\
    no_wpt_start body = true.

(** [item.get(k) or ""] read off an item. *)
Definition text_field (item : json) (k : string) : json :=
  py_or (field item k) (JStr "").

(** What follows the opening tag in a waypoint whose fields are all empty
    texts; the flags say which optional elements are there. *)
Definition bare_body (href typ iid site_id status marker : bool) : string :=
  "    <name></name>"
  ++ (if href
      then NL ++ "    <link href=" ++ DQ ++ DQ ++ "><text></text></link>"
      else "")
  ++ NL ++ "    <desc></desc>"
  ++ (if typ then NL ++ "    <type></type>" else "")
  ++ (if iid || site_id || status || marker
      then NL ++ "    <extensions>" ++ NL ++ "      "
           ++ (if iid then "<sa:id></sa:id>" else "")
           ++ (if site_id then "<sa:siteId></sa:siteId>" else "")
           ++ (if status then "<sa:status></sa:status>" else "")
           ++ (if marker then "<sa:marker></sa:marker>" else "")
           ++ NL ++ "    </extensions>"
      else "")
  ++ NL ++ "  </wpt>".

(** The head of the document up to the creator, from the creator to the
    time, and after the time. *)
Definition gpx_before_creator : string :=
  "<?xml version=" ++ DQ ++ "1.0" ++ DQ ++ " encoding=" ++ DQ ++ "UTF-8" ++ DQ ++ "?>" ++ NL
  ++ "<gpx version=" ++ DQ ++ "1.1" ++ DQ ++ NL
  ++ "     creator=" ++ DQ.

Definition gpx_before_time : string :=
  DQ ++ NL
  ++ "     xmlns=" ++ DQ ++ "http://www.topografix.com/GPX/1/1" ++ DQ ++ NL
  ++ "     xmlns:xsi=" ++ DQ ++ "http://www.w3.org/2001/XMLSchema-instance" ++ DQ ++ NL
  ++ "     xmlns:sa=" ++ DQ ++ "https://streetart.media/ns/1.0" ++ DQ ++ NL
  ++ "     xsi:schemaLocation=" ++ DQ ++ "http://www.topografix.com/GPX/1/1" ++ NL
  ++ "                         http://www.topografix.com/GPX/1/1/gpx.xsd" ++ DQ ++ ">" ++ NL
  ++ "  <metadata>" ++ NL
  ++ "    <time>".

Definition gpx_after_time : string :=
  "</time>" ++ NL ++ "  </metadata>" ++ NL.

(** An item without [id] whose location gives no number for [lat] nor for
    [lng], and whose title is the text [title], the empty text when it has
    none. *)
Definition unlocated (item : json) (title : string) : Prop :=
  exists lat lon,
    get item "id" = Ok JNull /\
    get (py_or (field item "location") (JObj [])) "lat" = Ok lat /\
    get (py_or (field item "location") (JObj [])) "lng" = Ok lon /\
    is_number lat = false /\ is_number lon = false /\
    text_field item "title" = JStr title.

End Program.

(** ** Inputs of the examples *)

(** The world in which the named documents can be read and nothing else. *)
Definition world_of (docs : list (string * json)) : World :=
  fun src =>
    match find (fun doc => fst doc =? src) docs with
    | Some doc => Loaded (snd doc)
    | None => LoadError ("[Errno 2] No such file or directory: '" ++ src ++ "'")
    end.

(** The floats 48.85 and 2.35. *)
Definition f48_85 : spec_float := S754_finite false 6875026306157773 (-47).
Definition f2_35 : spec_float := S754_finite false 5291729562160333 (-51).

Definition statue : json :=
  JObj [("id", JStr "1"); ("title", JStr "Statue");
        ("location", JObj [("lat", JFloat f48_85); ("lng", JFloat f2_35)]);
        ("type", JStr "mural")].

Definition copy_of_statue : json :=
  JObj [("id", JStr "1"); ("title", JStr "Statue again")].

Definition mural : json :=
  JObj [("id", JInt 2); ("title", JStr "<A & B>");
        ("location", JObj [("lat", JInt 1); ("lng", JInt 2)])].

Definition lost : json := JObj [("title", JStr "Lost")].

Definition lost_again : json :=
  JObj [("title", JStr "Lost"); ("location", JObj [("address", JStr "Nowhere")])].

Definition flagged : json :=
  JObj [("location", JObj [("lat", JBool true); ("lng", JBool false)])].

(** Two items without id, titled alike, whose coordinates differ past the
    seventh decimal: 48.85 and 2.35, and 48.850000001 and 2.3500000004. *)
Definition fresco : json :=
  JObj [("title", JStr "Fresco");
        ("location", JObj [("lat", JFloat f48_85); ("lng", JFloat f2_35)])].

Definition fresco_nearby : json :=
  JObj [("title", JStr "Fresco");
        ("location",
         JObj [("lat", JFloat (S754_finite false 6875026306298510 (-47)));
               ("lng", JFloat (S754_finite false 5291729563061053 (-51)))])].

Definition run_of (srcs : list string) : Args :=
  {| sources := srcs; output := None; no_dedup := false |}.

(** * Properties *)

Section Properties.
Context {RT : PyRuntime}.

(** ** Texts *)

Lemma append_assoc (a b c : string) : (a ++ b) ++ c = a ++ (b ++ c).
Proof.
  induction a as [|x a IH]; simpl; [reflexivity | now rewrite IH].
Qed.

Lemma append_nil_r (a : string) : a ++ "" = a.
Proof.
  induction a as [|x a IH]; simpl; [reflexivity | now rewrite IH].
Qed.

Lemma all_chars_app (p : ascii -> bool) (a b : string) :
  all_chars p (a ++ b) = all_chars p a && all_chars p b.
Proof.
  induction a as [|x a IH]; simpl; [reflexivity |].
  rewrite IH. now rewrite andb_assoc.
Qed.

Lemma keep_chars_app (p : ascii -> bool) (a b : string) :
  keep_chars p (a ++ b) = keep_chars p a ++ keep_chars p b.
Proof.
  induction a as [|x a IH]; simpl; [reflexivity |].
  destruct (p x); simpl; now rewrite IH.
Qed.

Lemma keep_chars_none (p : ascii -> bool) (s : string) :
  all_chars (fun c => negb (p c)) s = true -> keep_chars p s = "".
Proof.
  induction s as [|x s IH]; simpl; [reflexivity |].
  destruct (p x); simpl; [discriminate | exact IH].
Qed.

Lemma prefix_app (p a b : string) : prefix p a = true -> prefix p (a ++ b) = true.
Proof.
  revert a. induction p as [|x p IH]; intros a H; [now destruct (a ++ b) |].
  destruct a as [|y a]; simpl in *; [discriminate |].
  destruct (ascii_dec x y); [now apply IH | discriminate].
Qed.

Lemma entity_tail_app (a b : string) : entity_tail a = true -> entity_tail (a ++ b) = true.
Proof.
  unfold entity_tail. intros H.
  repeat (apply orb_true_iff in H; destruct H as [H | H]);
    rewrite (prefix_app _ _ b H); repeat rewrite orb_true_r; reflexivity.
Qed.

Lemma amp_escaped_app (a b : string) :
  amp_escaped a = true -> amp_escaped b = true -> amp_escaped (a ++ b) = true.
Proof.
  intros Ha Hb. induction a as [|x a IH]; simpl in *; [exact Hb |].
  apply andb_true_iff in Ha. destruct Ha as [Hx Ha].
  rewrite (IH Ha), andb_true_r.
  destruct (Ascii.eqb x "&"); [now apply entity_tail_app | reflexivity].
Qed.

Lemma escaped_app (a b : string) :
  escaped a = true -> escaped b = true -> escaped (a ++ b) = true.
Proof.
  unfold escaped. intros Ha Hb.
  apply andb_true_iff in Ha. apply andb_true_iff in Hb.
  destruct Ha as [Ha1 Ha2], Hb as [Hb1 Hb2].
  rewrite all_chars_app, Ha1, Hb1. simpl. now apply amp_escaped_app.
Qed.

Lemma escaped_markup (s : string) : escaped s = true -> markup s = "".
Proof.
  unfold escaped, markup. intros H. apply andb_true_iff in H.
  now apply keep_chars_none.
Qed.

Lemma escaped_amp (s : string) : escaped s = true -> amp_escaped s = true.
Proof.
  unfold escaped. intros H. apply andb_true_iff in H. tauto.
Qed.

(** ** [html.escape] *)

Lemma replace_char_app (c : ascii) (r a b : string) :
  replace_char c r (a ++ b) = replace_char c r a ++ replace_char c r b.
Proof.
  induction a as [|x a IH]; simpl; [reflexivity |].
  destruct (Ascii.eqb x c); simpl; rewrite IH; [now rewrite append_assoc | reflexivity].
Qed.

Lemma xmlesc_app (a b : string) : xmlesc (a ++ b) = xmlesc a ++ xmlesc b.
Proof.
  unfold xmlesc. now rewrite !replace_char_app.
Qed.

Lemma xmlesc_char_escaped (c : ascii) : escaped (xmlesc (String c "")) = true.
Proof.
  destruct c as [[] [] [] [] [] [] [] []]; vm_compute; reflexivity.
Qed.

Lemma xmlesc_escaped (s : string) : escaped (xmlesc s) = true.
Proof.
  induction s as [|c s IH]; [reflexivity |].
  change (String c s) with (String c "" ++ s).
  rewrite xmlesc_app. apply escaped_app; [apply xmlesc_char_escaped | exact IH].
Qed.

Lemma esc_escaped (v : json) : escaped (esc v) = true.
Proof.
  unfold esc. apply xmlesc_escaped.
Qed.

(** ** [build_wpt] *)

Lemma get_field (item : json) (k : string) (v : json) :
  get item k = Ok v -> v = field item k /\ exists d, item = JObj d.
Proof.
  destruct item; simpl; intros H; try discriminate.
  injection H as <-. split; [reflexivity | now eexists].
Qed.

(** What [build_wpt] has read and checked when it returns a waypoint. *)
Lemma build_wpt_some (item : json) (w : string) :
  build_wpt item = Ok (Some w) ->
  exists lat lon desc,
    get (py_or (field item "location") (JObj [])) "lat" = Ok lat /\
    get (py_or (field item "location") (JObj [])) "lng" = Ok lon /\
    is_number lat = true /\ is_number lon = true /\
    w = wpt_open (py_str lat) (py_str lon)
        ++ wpt_body (text_field item "title") (text_field item "href")
             (text_field item "marker") (text_field item "type")
             (text_field item "status") (text_field item "siteId")
             (text_field item "id") desc.
Proof.
  unfold build_wpt. intros H.
  destruct item; try discriminate. cbn [get bind] in H.
  destruct (get (py_or (dict_get d "location") (JObj [])) "lat") as [lat|] eqn:Hlat;
    [| discriminate].
  destruct (get (py_or (dict_get d "location") (JObj [])) "lng") as [lon|] eqn:Hlon;
    [| discriminate].
  cbn [bind] in H.
  destruct (is_number lat) eqn:Nlat; [| discriminate].
  destruct (is_number lon) eqn:Nlon; [| discriminate].
  cbn [negb orb] in H.
  destruct (get (py_or (dict_get d "location") (JObj [])) "address") as [addr|];
    [| discriminate].
  cbn [bind] in H.
  match type of H with
  | bind (join_values ?s ?l) _ = _ => destruct (join_values s l) as [desc|]; [| discriminate]
  end.
  cbn [bind] in H. injection H as <-.
  exists lat, lon, desc. cbn [field]. repeat split; assumption || reflexivity.
Qed.

(** When [build_wpt] returns no waypoint, the check on the coordinates failed. *)
Lemma build_wpt_none (item : json) :
  build_wpt item = Ok None -> has_coordinates item = false.
Proof.
  unfold build_wpt, has_coordinates. intros H.
  destruct (get item "location") as [loc0|]; [| reflexivity].
  cbn [bind] in H.
  destruct (get (py_or loc0 (JObj [])) "lat") as [lat|]; [| reflexivity].
  destruct (get (py_or loc0 (JObj [])) "lng") as [lon|]; [| reflexivity].
  cbn [bind] in H.
  destruct (is_number lat), (is_number lon); try reflexivity.
  cbn [negb orb] in H.
  repeat match type of H with
  | bind ?c _ = _ => destruct c; cbn [bind] in H; [| discriminate]
  end.
  discriminate.
Qed.

Lemma build_wpt_some_coordinates (item : json) (w : string) :
  build_wpt item = Ok (Some w) -> has_coordinates item = true.
Proof.
  intros H. destruct (build_wpt_some _ _ H) as (lat & lon & desc & Hlat & Hlon & Nlat & Nlon & _).
  unfold has_coordinates.
  destruct item; try (unfold build_wpt in H; discriminate).
  cbn [get field] in *. now rewrite Hlat, Hlon, Nlat, Nlon.
Qed.

Lemma no_wpt_start_app (a b : string) :
  no_wpt_start a = true -> no_wpt_start b = true -> no_wpt_start (a ++ b) = true.
Proof.
  intros Ha Hb. induction a as [|x a IH]; simpl in *; [exact Hb |].
  apply andb_true_iff in Ha. destruct Ha as [Hx Ha].
  rewrite (IH Ha), andb_true_r.
  destruct (Ascii.eqb x "<"); [| reflexivity].
  destruct a; [discriminate | exact Hx].
Qed.

Lemma no_lt_no_wpt_start (s : string) :
  all_chars (fun c => negb (Ascii.eqb c "<")) s = true -> no_wpt_start s = true.
Proof.
  induction s as [|x s IH]; simpl; [reflexivity |].
  intros H. apply andb_true_iff in H. destruct H as [Hx H].
  rewrite (IH H), andb_true_r.
  destruct (Ascii.eqb x "<"); [discriminate | reflexivity].
Qed.

Lemma all_chars_impl (p q : ascii -> bool) (s : string) :
  (forall c, p c = true -> q c = true) -> all_chars p s = true -> all_chars q s = true.
Proof.
  intros Hpq. induction s as [|x s IH]; simpl; [reflexivity |].
  intros H. apply andb_true_iff in H. destruct H as [Hx H].
  now rewrite (Hpq _ Hx), (IH H).
Qed.

Lemma escaped_no_wpt_start (s : string) : escaped s = true -> no_wpt_start s = true.
Proof.
  unfold escaped. intros H. apply andb_true_iff in H. destruct H as [H _].
  apply no_lt_no_wpt_start. revert H. apply all_chars_impl.
  intros c. unfold xml_special. now destruct (Ascii.eqb c "<").
Qed.

Lemma esc_markup (v : json) : keep_chars xml_special (esc v) = "".
Proof.
  apply (escaped_markup _ (esc_escaped v)).
Qed.

Lemma esc_amp (v : json) : amp_escaped (esc v) = true.
Proof.
  apply (escaped_amp _ (esc_escaped v)).
Qed.

Lemma esc_no_wpt_start (v : json) : no_wpt_start (esc v) = true.
Proof.
  apply (escaped_no_wpt_start _ (esc_escaped v)).
Qed.

(** The body of a waypoint, flag by flag. *)
Ltac body_cases :=
  intros; unfold wpt_body;
  repeat match goal with
  | |- context [truthy ?v] => destruct (truthy v)
  end;
  cbn [List.concat List.app join String.concat].

Ltac by_pieces app_lemma esc_lemma :=
  repeat apply app_lemma; first [reflexivity | apply esc_lemma].

Lemma wpt_body_amp (title href marker typ status site_id iid : json) (desc : string) :
  amp_escaped (wpt_body title href marker typ status site_id iid desc) = true.
Proof.
  body_cases; by_pieces amp_escaped_app esc_amp.
Qed.

Lemma wpt_body_no_wpt_start (title href marker typ status site_id iid : json) (desc : string) :
  no_wpt_start (wpt_body title href marker typ status site_id iid desc) = true.
Proof.
  body_cases; by_pieces no_wpt_start_app esc_no_wpt_start.
Qed.

Lemma wpt_body_markup (title href marker typ status site_id iid : json) (desc : string) :
  markup (wpt_body title href marker typ status site_id iid desc)
  = markup (bare_body (truthy href) (truthy typ) (truthy iid) (truthy site_id)
                      (truthy status) (truthy marker)).
Proof.
  unfold markup. body_cases;
    rewrite ?keep_chars_app, ?esc_markup; reflexivity.
Qed.

Lemma truthy_text (v : json) : truthy (py_or v (JStr "")) = truthy v.
Proof.
  unfold py_or. destruct (truthy v) eqn:E; [exact E | reflexivity].
Qed.

Lemma dict_get_cons (k k' : string) (v : json) (d : list (string * json)) :
  dict_get ((k, v) :: d) k' = if k =? k' then v else dict_get d k'.
Proof. reflexivity. Qed.

(** A field set to the empty text reads as the field left out or null. *)
Lemma build_wpt_blank (d : list (string * json)) (k : string) :
  In k ["title"; "href"; "marker"; "type"; "status"; "siteId"; "id"] ->
  dict_get d k = JNull ->
  build_wpt (JObj ((k, JStr "") :: d)) = build_wpt (JObj d).
Proof.
  intros Hk Hnull. unfold build_wpt. cbn [get bind].
  repeat (destruct Hk as [<- | Hk];
          [rewrite !dict_get_cons; cbn [String.eqb Ascii.eqb Bool.eqb];
           rewrite ?Hnull; reflexivity |]).
  destruct Hk.
Qed.

(** C6: every free text of an item reaches the output through [esc], whose
    result holds no angle bracket and no quote, and no ampersand but at the
    start of a character reference.  So what follows the opening tag of a
    waypoint has the markup characters of the bare template, whatever the
    fields hold; a title [<A & B>] gives the name element
    [<name>&lt;A &amp; B&gt;</name>]; and [None] is written as the empty
    text: a field left out or null reads as the empty text. *)
Theorem free_text_is_escaped :
  (forall v : json, escaped (esc v) = true) /\
  (forall (item : json) (w : string),
     build_wpt item = Ok (Some w) ->
     exists lat lon body,
       w = wpt_open lat lon ++ body /\
       amp_escaped body = true /\
       markup body
       = markup (bare_body (truthy (field item "href")) (truthy (field item "type"))
                           (truthy (field item "id")) (truthy (field item "siteId"))
                           (truthy (field item "status")) (truthy (field item "marker")))) /\
  (forall (item : json) (w : string),
     build_wpt item = Ok (Some w) ->
     field item "title" = JStr "<A & B>" ->
     exists lat lon rest,
       w = wpt_open lat lon ++ "    <name>&lt;A &amp; B&gt;</name>" ++ rest) /\
  esc JNull = "" /\
  (forall (d : list (string * json)) (k : string),
     In k ["title"; "href"; "marker"; "type"; "status"; "siteId"; "id"] ->
     dict_get d k = JNull ->
     build_wpt (JObj ((k, JStr "") :: d)) = build_wpt (JObj d)).
Proof.
  split; [exact esc_escaped |].
  split.
  { intros item w H.
    destruct (build_wpt_some _ _ H) as (lat & lon & desc & _ & _ & _ & _ & ->).
    eexists _, _, _. split; [reflexivity |].
    split; [apply wpt_body_amp |].
    rewrite wpt_body_markup. unfold text_field. now rewrite !truthy_text. }
  split.
  { intros item w H Ht.
    destruct (build_wpt_some _ _ H) as (lat & lon & desc & _ & _ & _ & _ & ->).
    unfold text_field at 1. rewrite Ht.
    eexists _, _, _. unfold wpt_body. cbn [py_or truthy String.eqb negb].
    f_equal. change (esc (JStr "<A & B>")) with "&lt;A &amp; B&gt;". reflexivity. }
  split; [reflexivity | exact build_wpt_blank].
Qed.

(** ** [build_gpx] *)

Lemma map_result_app {A B : Type} (f : A -> result B) (a b : list A) :
  map_result f (a ++ b)%list
  = (xs <- map_result f a ;; ys <- map_result f b ;; Ok (xs ++ ys)%list).
Proof.
  induction a as [|x a IH]; simpl.
  - destruct (map_result f b); reflexivity.
  - destruct (f x); simpl; [| reflexivity].
    rewrite IH. destruct (map_result f a); simpl; [| reflexivity].
    destruct (map_result f b); reflexivity.
Qed.

Lemma build_wpt_dropped (item : json) :
  has_coordinates item = false -> reads_location item = true ->
  build_wpt item = Ok None.
Proof.
  destruct item as [| | | | | | d]; try discriminate.
  unfold has_coordinates, reads_location, build_wpt. cbn [get bind].
  destruct (py_or (dict_get d "location") (JObj [])) as [| | | | | | loc];
    try discriminate.
  cbn [get bind]. intros Hc _.
  apply andb_false_iff in Hc. destruct Hc as [-> | ->]; [reflexivity |].
  now rewrite orb_true_r.
Qed.

Lemma build_wpt_unreadable (item : json) :
  reads_location item = false ->
  has_coordinates item = false /\ build_wpt item = Raise AttributeError.
Proof.
  destruct item as [| | | | | | d]; try (intros _; split; reflexivity).
  unfold has_coordinates, reads_location, build_wpt. cbn [get bind].
  destruct (py_or (dict_get d "location") (JObj [])) as [| | | | | | loc];
    try (intros _; split; reflexivity).
  discriminate.
Qed.

Lemma build_gpx_without (item : json) :
  build_wpt item = Ok None ->
  forall (now_iso : string) (before after : list json) (meta_any : json),
    build_gpx now_iso (before ++ item :: after) meta_any
    = build_gpx now_iso (before ++ after) meta_any.
Proof.
  intros Hnone now_iso before after meta_any. unfold build_gpx.
  destruct (get (py_or meta_any (JObj [])) "generator") as [gen0|]; [| reflexivity].
  cbn [bind]. rewrite !map_result_app. cbn [map_result]. rewrite Hnone. cbn [bind].
  destruct (map_result build_wpt before) as [xs|]; [| reflexivity].
  destruct (map_result build_wpt after) as [ys|]; [| reflexivity].
  cbn [bind]. now rewrite !flat_map_app.
Qed.

Lemma build_gpx_with_raising (item : json) (e : exn) :
  build_wpt item = Raise e ->
  forall (now_iso : string) (before after : list json) (meta_any : json),
    exists e', build_gpx now_iso (before ++ item :: after) meta_any = Raise e'.
Proof.
  intros He now_iso before after meta_any. unfold build_gpx.
  destruct (get (py_or meta_any (JObj [])) "generator") as [gen0|]; [| now eexists].
  cbn [bind]. rewrite map_result_app. cbn [map_result]. rewrite He. cbn [bind].
  destruct (map_result build_wpt before) as [xs|]; now eexists.
Qed.

(** C3, as the code has it: an item whose location gives no number for
    [lat] or for [lng] gets no waypoint, for [build_wpt] never returns one
    for an item that fails the check.  It is dropped without an error
    exactly when its location can be read, that is when the item is an
    object whose location is not there, false, or an object: [build_wpt]
    then returns [None], and the document [build_gpx] writes is the one it
    writes without the item.  When the location cannot be read, as for an
    item whose location is a text, [build_wpt] raises [AttributeError] and
    [build_gpx] writes no document for a list that holds the item. *)
Theorem item_without_coordinates_is_dropped :
  (forall (item : json) (w : string),
     has_coordinates item = false -> build_wpt item <> Ok (Some w)) /\
  (forall item : json,
     has_coordinates item = false -> reads_location item = true ->
     build_wpt item = Ok None /\
     forall (now_iso : string) (before after : list json) (meta_any : json),
       build_gpx now_iso (before ++ item :: after) meta_any
       = build_gpx now_iso (before ++ after) meta_any) /\
  (forall item : json,
     reads_location item = false ->
     has_coordinates item = false /\
     build_wpt item = Raise AttributeError /\
     forall (now_iso : string) (before after : list json) (meta_any : json),
       exists e, build_gpx now_iso (before ++ item :: after) meta_any = Raise e) /\
  (forall item : json,
     build_wpt item = Ok None
     <-> has_coordinates item = false /\ reads_location item = true).
Proof.
  split.
  { intros item w Hc Hw. apply build_wpt_some_coordinates in Hw. congruence. }
  split.
  { intros item Hc Hr. pose proof (build_wpt_dropped _ Hc Hr) as Hnone.
    split; [exact Hnone | now apply build_gpx_without]. }
  split.
  { intros item Hr. destruct (build_wpt_unreadable _ Hr) as [Hc He].
    split; [exact Hc |]. split; [exact He |].
    now apply (build_gpx_with_raising item AttributeError). }
  intros item. split.
  - intros Hnone. split; [now apply build_wpt_none |].
    destruct (reads_location item) eqn:Hr; [reflexivity |].
    destruct (build_wpt_unreadable _ Hr) as [_ He]. congruence.
  - intros [Hc Hr]. now apply build_wpt_dropped.
Qed.

Lemma field_obj (item : json) (k : string) (v : json) :
  field item k = v -> v <> JNull -> exists d, item = JObj d /\ dict_get d k = v.
Proof.
  destruct item; simpl; intros H Hv; try (now subst v; contradiction Hv).
  now eexists.
Qed.

Lemma join_desc_parts (addr : string) (marker : json) :
  exists desc,
    join_values NL
      (List.app (if truthy (JStr addr) then [JStr addr] else [])
                (if truthy marker then [JStr ("marker: " ++ py_str marker)] else []))
    = Ok desc.
Proof.
  destruct (truthy (JStr addr)), (truthy marker); cbn; eexists; reflexivity.
Qed.

Lemma join_desc_raises (addr marker : json) :
  (forall s, py_or addr (JStr "") <> JStr s) ->
  join_values NL
    (List.app (if truthy (py_or addr (JStr "")) then [py_or addr (JStr "")] else [])
              (if truthy marker then [JStr ("marker: " ++ py_str marker)] else []))
  = Raise TypeError.
Proof.
  intros H. unfold py_or in *. destruct (truthy addr) eqn:Ht.
  - rewrite Ht. destruct addr; try reflexivity. now elim (H s).
  - now elim (H "").
Qed.

(** C9, as the code has it: booleans pass the check on the coordinates,
    for [bool] is an [int]: an item whose [lat] and [lng] are booleans is
    never dropped.  When its address is a text, or false, or not there, the
    waypoint written for it opens with the tag that holds their texts,
    [True] or [False], as its [lat] and [lon]; when its address is true and
    no text, joining the description raises [TypeError] and no waypoint is
    written. *)
Theorem boolean_coordinates_are_written
  (item : json) (loc : list (string * json)) (a b : bool) :
  field item "location" = JObj loc ->
  dict_get loc "lat" = JBool a ->
  dict_get loc "lng" = JBool b ->
  has_coordinates item = true /\
  build_wpt item <> Ok None /\
  (forall address : string,
     py_or (dict_get loc "address") (JStr "") = JStr address ->
     exists body,
       build_wpt item
       = Ok (Some (("  <wpt lat=" ++ DQ ++ (if a then "True" else "False") ++ DQ
                    ++ " lon=" ++ DQ ++ (if b then "True" else "False") ++ DQ
                    ++ ">" ++ NL)
                   ++ body))) /\
  ((forall address : string,
      py_or (dict_get loc "address") (JStr "") <> JStr address) ->
   build_wpt item = Raise TypeError).
Proof.
  intros Hloc Hlat Hlon.
  destruct (field_obj _ _ _ Hloc) as (d & -> & Hd); [discriminate |].
  assert (Hor : py_or (JObj loc) (JObj []) = JObj loc).
  { destruct loc; [discriminate | reflexivity]. }
  assert (Hc : has_coordinates (JObj d) = true).
  { unfold has_coordinates. cbn [get]. rewrite Hd, Hor. cbn [get].
    now rewrite Hlat, Hlon. }
  split; [exact Hc |].
  split.
  { intros Hnone. apply build_wpt_none in Hnone. congruence. }
  split.
  - intros address Haddr.
    unfold build_wpt. cbn [get bind]. rewrite Hd, Hor. cbn [get bind].
    rewrite Hlat, Hlon, Haddr. cbn [is_number negb orb].
    destruct (join_desc_parts address (py_or (dict_get d "marker") (JStr ""))) as [desc ->].
    cbn [bind]. eexists. destruct a, b; reflexivity.
  - intros Haddr.
    unfold build_wpt. cbn [get bind]. rewrite Hd, Hor. cbn [get bind].
    rewrite Hlat, Hlon. cbn [is_number negb orb].
    now rewrite (join_desc_raises _ _ Haddr).
Qed.

(** ** Counting [<wpt ] *)

Lemma count_skips (a b : string) :
  no_wpt_start a = true ->
  count_from "<wpt " (a ++ b) 0 = count_from "<wpt " b 0.
Proof.
  intros Ha. induction a as [|x a IH]; [reflexivity |].
  cbn [no_wpt_start] in Ha. apply andb_true_iff in Ha. destruct Ha as [Hx Ha].
  specialize (IH Ha).
  change (String x a ++ b) with (String x (a ++ b)).
  cbn [count_from prefix].
  destruct (ascii_dec "<" x) as [<- | Hne]; [| exact IH].
  destruct a as [|y a]; [discriminate |].
  change (String y a ++ b) with (String y (a ++ b)). cbn [prefix].
  destruct (ascii_dec "w" y) as [<- | Hne]; [discriminate | exact IH].
Qed.

Lemma count_wpt_open (lat lon rest : string) :
  no_lt lat = true -> no_lt lon = true ->
  count_from "<wpt " (wpt_open lat lon ++ rest) 0 = S (count_from "<wpt " rest 0).
Proof.
  intros Hlat Hlon. unfold wpt_open.
  change ("  <wpt lat=" ++ DQ ++ lat ++ DQ ++ " lon=" ++ DQ ++ lon ++ DQ ++ ">" ++ NL)
    with ("  <wpt " ++ ("lat=" ++ DQ ++ lat ++ DQ ++ " lon=" ++ DQ ++ lon ++ DQ ++ ">" ++ NL)).
  rewrite append_assoc.
  change (count_from "<wpt "
            ("  <wpt " ++ ("lat=" ++ DQ ++ lat ++ DQ ++ " lon=" ++ DQ ++ lon ++ DQ ++ ">" ++ NL)
                       ++ rest) 0)
    with (S (count_from "<wpt "
               (("lat=" ++ DQ ++ lat ++ DQ ++ " lon=" ++ DQ ++ lon ++ DQ ++ ">" ++ NL)
                ++ rest) 0)).
  f_equal. apply count_skips.
  repeat apply no_wpt_start_app;
    first [reflexivity | now apply no_lt_no_wpt_start].
Qed.

Lemma uint_text_no_lt (d : Decimal.uint) : no_lt (NilEmpty.string_of_uint d) = true.
Proof.
  induction d; simpl; auto.
Qed.

Lemma str_int_no_lt (z : Z) : no_lt (str_int z) = true.
Proof.
  unfold str_int. destruct (Z.to_int z); simpl; apply uint_text_no_lt.
Qed.

Lemma number_text_no_lt (v : json) :
  float_text_plain -> is_number v = true -> no_lt (py_str v) = true.
Proof.
  intros Hplain Hv. destruct v; try discriminate; simpl.
  - now destruct b.
  - apply str_int_no_lt.
  - apply Hplain.
Qed.

Lemma build_wpt_waypoint_text (item : json) (w : string) :
  float_text_plain -> build_wpt item = Ok (Some w) -> waypoint_text w.
Proof.
  intros Hplain H.
  destruct (build_wpt_some _ _ H) as (lat & lon & desc & _ & _ & Nlat & Nlon & ->).
  eexists _, _, _. split; [reflexivity |].
  repeat split; auto using number_text_no_lt, wpt_body_no_wpt_start.
Qed.

Lemma waypoint_text_kept (w : string) : waypoint_text w -> kept_wpt (Some w) = [w].
Proof.
  intros (lat & lon & body & -> & _). reflexivity.
Qed.

(** The waypoints [build_gpx] keeps are as many as the items that pass the
    check, and each has the text of a waypoint. *)
Lemma kept_wpts (items : list json) (ws : list (option string)) :
  float_text_plain ->
  map_result build_wpt items = Ok ws ->
  Forall waypoint_text (flat_map kept_wpt ws) /\
  List.length (flat_map kept_wpt ws) = List.length (filter has_coordinates items).
Proof.
  intros Hplain. revert ws. induction items as [|it items IH]; intros ws H.
  - injection H as <-. split; [constructor | reflexivity].
  - cbn [map_result] in H.
    destruct (build_wpt it) as [o|] eqn:Hit; [| discriminate]. cbn [bind] in H.
    destruct (map_result build_wpt items) as [ws'|]; [| discriminate].
    cbn [bind] in H. injection H as <-.
    destruct (IH ws' eq_refl) as [IH1 IH2].
    cbn [flat_map filter]. destruct o as [w|].
    + pose proof (build_wpt_waypoint_text _ _ Hplain Hit) as Hw.
      rewrite (waypoint_text_kept _ Hw), (build_wpt_some_coordinates _ _ Hit).
      split; [now constructor | cbn; now rewrite IH2].
    + rewrite (build_wpt_none _ Hit). split; assumption.
Qed.

Lemma count_waypoints (ws : list string) :
  Forall waypoint_text ws ->
  count_from "<wpt " (join NL ws ++ gpx_tail) 0 = List.length ws.
Proof.
  induction 1 as [|w ws (lat & lon & body & -> & Hlat & Hlon & Hbody) Hws IH];
    [reflexivity |].
  unfold join in *. cbn [String.concat List.length].
  destruct ws as [|w' ws].
  - rewrite append_assoc, (count_wpt_open _ _ _ Hlat Hlon).
    now rewrite (count_skips _ _ Hbody).
  - rewrite !append_assoc, (count_wpt_open _ _ _ Hlat Hlon).
    rewrite (count_skips _ _ Hbody).
    change (NL ++ String.concat NL (w' :: ws) ++ gpx_tail)
      with (NL ++ (String.concat NL (w' :: ws) ++ gpx_tail)).
    rewrite (count_skips NL _ eq_refl). now rewrite IH.
Qed.

Lemma gpx_head_no_wpt_start (now_iso : string) (gen : json) :
  no_wpt_start (gpx_head now_iso gen) = true.
Proof.
  unfold gpx_head.
  repeat apply no_wpt_start_app; first [reflexivity | apply esc_no_wpt_start].
Qed.

Lemma build_gpx_ok (now_iso : string) (items : list json) (meta_any : json) (gpx : string) :
  build_gpx now_iso items meta_any = Ok gpx ->
  exists gen ws,
    map_result build_wpt items = Ok ws /\
    gpx = gpx_head now_iso gen ++ join NL (flat_map kept_wpt ws) ++ gpx_tail.
Proof.
  unfold build_gpx. intros H.
  destruct (get (py_or meta_any (JObj [])) "generator") as [gen0|]; [| discriminate].
  destruct (map_result build_wpt items) as [ws|]; [| discriminate].
  exists (py_or gen0 (JStr "json2gpx")), ws. split; [reflexivity |].
  symmetry. now injection H.
Qed.

Lemma count_wpt (s : string) : count s "<wpt " = count_from "<wpt " s 0.
Proof. reflexivity. Qed.

(** The count of [<wpt ] in the document [build_gpx] writes. *)
Lemma build_gpx_count (now_iso : string) (items : list json) (meta_any : json) (gpx : string) :
  float_text_plain ->
  build_gpx now_iso items meta_any = Ok gpx ->
  count gpx "<wpt " = List.length (filter has_coordinates items).
Proof.
  intros Hplain H.
  destruct (build_gpx_ok _ _ _ _ H) as (gen & ws & Hws & ->).
  destruct (kept_wpts _ _ Hplain Hws) as [Htexts Hlen].
  rewrite count_wpt.
  rewrite (count_skips _ _ (gpx_head_no_wpt_start _ _)).
  now rewrite (count_waypoints _ Htexts).
Qed.

(** ** [main] *)

(** What a run that reaches the write has done. *)
Lemma main_return (w : World) (now_iso : string) (args : Args) (s : Saved) :
  main w now_iso args = Return s ->
  exists all_items any_meta items,
    load_sources w (sources args) [] JNull = Return (all_items, any_meta) /\
    merge (no_dedup args) all_items = Ok items /\
    build_gpx now_iso items any_meta = Ok (gpx_text s) /\
    derive_output_path (sources args) (output args) = Ok (out_path s) /\
    waypoints s = count (gpx_text s) "<wpt ".
Proof.
  unfold main. intros H.
  destruct (load_sources w (sources args) [] JNull) as [[all_items any_meta]| |] eqn:Hl;
    try discriminate.
  destruct (merge (no_dedup args) all_items) as [items|] eqn:Hm; [| discriminate].
  cbn [bind] in H.
  destruct (build_gpx now_iso items any_meta) as [gpx|] eqn:Hg; [| discriminate].
  cbn [bind] in H.
  destruct (derive_output_path (sources args) (output args)) as [p|] eqn:Hp;
    [| discriminate].
  cbn [bind] in H. injection H as <-.
  exists all_items, any_meta, items. cbn [gpx_text out_path waypoints].
  repeat split; assumption || reflexivity.
Qed.

(** C10: in a run that writes its output, the count of waypoints printed,
    the number of [<wpt ] in the text written, is the number of merged items
    that pass the check on the coordinates: escaped text and the text of a
    number hold no [<]. *)
Theorem waypoint_count_is_exact
  (w : World) (now_iso : string) (args : Args) (s : Saved) :
  float_text_plain ->
  main w now_iso args = Return s ->
  exists all_items any_meta items,
    load_sources w (sources args) [] JNull = Return (all_items, any_meta) /\
    merge (no_dedup args) all_items = Ok items /\
    build_gpx now_iso items any_meta = Ok (gpx_text s) /\
    waypoints s = List.length (filter has_coordinates items).
Proof.
  intros Hplain H.
  destruct (main_return _ _ _ _ H) as (all_items & any_meta & items & Hl & Hm & Hg & _ & Hc).
  exists all_items, any_meta, items. repeat split; try assumption.
  rewrite Hc. now apply build_gpx_count with (now_iso := now_iso) (meta_any := any_meta).
Qed.

(** ** The loop over the sources *)

Lemma load_sources_step (w : World) (src : string) (rest : list string)
  (all_items : list json) (any_meta : json) :
  accepted w src ->
  load_sources w (src :: rest) all_items any_meta
  = load_sources w rest (all_items ++ doc_items w src)%list
      (first_meta [any_meta; doc_meta w src]).
Proof.
  intros (d & l & Hw & Hl). unfold doc_items, doc_meta. cbn [load_sources].
  rewrite Hw. cbn [get]. rewrite Hl. cbn [first_meta].
  destruct (is_none any_meta) eqn:E; cbn [get].
  - destruct (is_none (dict_get d "@meta")) eqn:E'; [| reflexivity].
    destruct (dict_get d "@meta"); try discriminate. reflexivity.
  - reflexivity.
Qed.

Lemma first_meta_cons (m : json) (metas : list json) :
  first_meta (first_meta [m] :: metas) = first_meta (m :: metas).
Proof.
  cbn [first_meta]. destruct (is_none m) eqn:E; [reflexivity |].
  now rewrite E.
Qed.

Lemma first_meta_two (a b : json) (metas : list json) :
  first_meta (first_meta [a; b] :: metas) = first_meta (a :: b :: metas).
Proof.
  cbn [first_meta]. destruct (is_none a) eqn:Ea; [| now rewrite Ea].
  destruct (is_none b) eqn:Eb; [reflexivity | now rewrite Eb].
Qed.

(** The loop goes through the sources it accepts. *)
Lemma load_sources_app (w : World) (taken rest : list string)
  (all_items : list json) (any_meta : json) :
  Forall (accepted w) taken ->
  load_sources w (taken ++ rest) all_items any_meta
  = load_sources w rest (all_items ++ flat_map (doc_items w) taken)%list
      (first_meta (any_meta :: map (doc_meta w) taken)).
Proof.
  intros H. revert all_items any_meta.
  induction H as [|src taken Hsrc _ IH]; intros all_items any_meta.
  - cbn [List.app flat_map map]. rewrite app_nil_r.
    cbn [first_meta]. destruct (is_none any_meta) eqn:E; [| reflexivity].
    now destruct any_meta.
  - change ((src :: taken) ++ rest)%list with (src :: (taken ++ rest))%list.
    rewrite (load_sources_step _ _ _ _ _ Hsrc), IH.
    cbn [flat_map map]. now rewrite <- app_assoc, first_meta_two.
Qed.

(** A loop that ends without an exit accepted every source. *)
Lemma load_sources_return (w : World) (srcs : list string)
  (all_items items : list json) (any_meta meta : json) :
  load_sources w srcs all_items any_meta = Return (items, meta) ->
  Forall (accepted w) srcs.
Proof.
  revert all_items any_meta. induction srcs as [|src srcs IH]; intros all_items any_meta H;
    [constructor |].
  cbn [load_sources] in H.
  destruct (w src) as [e|data] eqn:Hw; [discriminate |].
  destruct data; try discriminate. cbn [get] in H.
  destruct (py_or (dict_get d "items") (JList [])) eqn:Hl; try discriminate.
  assert (Hacc : accepted w src) by (now exists d, l).
  constructor; [exact Hacc |].
  destruct (is_none any_meta); now apply IH in H.
Qed.

(** C7: when [load_input] raises on a source the loop has reached, the run
    prints one line naming that source on standard error and exits with
    code 1, and writes no file. *)
Theorem read_failure_exits_1
  (w : World) (now_iso : string) (args : Args)
  (taken : list string) (src : string) (rest : list string) (e : string) :
  sources args = (taken ++ src :: rest)%list ->
  Forall (accepted w) taken ->
  w src = LoadError e ->
  main w now_iso args = SysExit 1 ("Error reading " ++ src ++ ": " ++ e) /\
  exit_code (main w now_iso args) = 1%Z /\
  file_written (main w now_iso args) = None.
Proof.
  intros Hsrcs Htaken Hw.
  assert (H : main w now_iso args = SysExit 1 ("Error reading " ++ src ++ ": " ++ e)).
  { unfold main. rewrite Hsrcs, (load_sources_app _ _ _ _ _ Htaken).
    cbn [load_sources]. now rewrite Hw. }
  rewrite H. repeat split; reflexivity.
Qed.

(** X1: a source whose [items] is there, true and no list ends the run with
    code 2, after a line on standard error that names it, and no file is
    written. *)
Lemma bad_items_exits_2
  (w : World) (now_iso : string) (args : Args)
  (taken : list string) (src : string) (rest : list string)
  (d : list (string * json)) :
  sources args = (taken ++ src :: rest)%list ->
  Forall (accepted w) taken ->
  w src = Loaded (JObj d) ->
  truthy (dict_get d "items") = true ->
  is_list (dict_get d "items") = false ->
  main w now_iso args = SysExit 2 (src ++ ": items[] missing or not a list").
Proof.
  intros Hsrcs Htaken Hw Ht Hl.
  unfold main. rewrite Hsrcs, (load_sources_app _ _ _ _ _ Htaken).
  cbn [load_sources]. rewrite Hw. cbn [get]. unfold py_or. rewrite Ht.
  destruct (dict_get d "items"); try reflexivity. discriminate.
Qed.

(** C1, on the code: a document without [items] is taken as one with no
    item.  The run on the document [{"foo": []}] of [x.json] exits with
    code 0 and writes [x.gpx], a document with no waypoint. *)
Theorem missing_items_is_an_empty_list (now_iso : string) :
  let w : World := fun _ => Loaded (JObj [("foo", JList [])]) in
  let args := {| sources := ["x.json"]; output := None; no_dedup := false |} in
  exit_code (main w now_iso args) = 0%Z /\
  file_written (main w now_iso args)
  = Some (path "x.gpx", gpx_head now_iso (JStr "json2gpx") ++ gpx_tail).
Proof.
  split; reflexivity.
Qed.

(** C2, as the code has it: the meta the run keeps is the [@meta] of the
    first document, in the order of the sources, whose [@meta] is there and
    not null; the GPX is built with it, and the metas of the documents after
    that one are not read. *)
Theorem meta_is_first_present :
  (forall (w : World) (now_iso : string) (args : Args) (s : Saved),
     main w now_iso args = Return s ->
     exists all_items items,
       load_sources w (sources args) [] JNull
       = Return (all_items, first_meta (map (doc_meta w) (sources args))) /\
       merge (no_dedup args) all_items = Ok items /\
       build_gpx now_iso items (first_meta (map (doc_meta w) (sources args)))
       = Ok (gpx_text s)) /\
  (forall (before : list json) (m : json) (after : list json),
     Forall (fun x => is_none x = true) before ->
     is_none m = false ->
     first_meta (before ++ m :: after) = m).
Proof.
  split.
  - intros w now_iso args s H.
    destruct (main_return _ _ _ _ H) as (all_items & any_meta & items & Hl & Hm & Hg & _).
    pose proof (load_sources_return _ _ _ _ _ _ Hl) as Hacc.
    pose proof (load_sources_app w (sources args) [] [] JNull Hacc) as Happ.
    rewrite app_nil_r, Hl in Happ. cbn [load_sources first_meta is_none] in Happ.
    injection Happ as Hitems Hmeta. subst any_meta.
    exists all_items, items. repeat split; assumption.
  - intros before m after Hb Hm. induction Hb as [|x before Hx _ IH]; cbn [List.app first_meta].
    + now rewrite Hm.
    + now rewrite Hx.
Qed.

(** ** Deduplication *)

Lemma key_in_true (k : set_key) (l : list set_key) : key_in k l = true <-> In k l.
Proof.
  unfold key_in. destruct (in_dec set_key_eq_dec k l); split; auto; discriminate.
Qed.

Lemma key_in_same (k : set_key) (l l' : list set_key) :
  (forall x, In x l <-> In x l') -> key_in k l = key_in k l'.
Proof.
  intros H. destruct (key_in k l') eqn:E.
  - apply key_in_true, H, key_in_true, E.
  - destruct (key_in k l) eqn:E'; [| reflexivity].
    apply key_in_true, H, key_in_true in E'. congruence.
Qed.

Lemma dedup_loop_unseen (items : list json) (seen : list set_key) (deduped : list json) :
  dedup_loop items seen deduped
  = (keys <- map_result set_key_of items ;; Ok (deduped ++ unseen seen items keys)%list).
Proof.
  revert seen deduped.
  induction items as [|it items IH]; intros seen deduped.
  - cbn. now rewrite app_nil_r.
  - cbn [dedup_loop map_result].
    destruct (set_key_of it) as [k|]; [| reflexivity]. cbn [bind].
    destruct (key_in k seen) eqn:E; rewrite IH;
      destruct (map_result set_key_of items) as [keys|]; try reflexivity;
      cbn [bind unseen]; rewrite E; [reflexivity |].
    now rewrite <- app_assoc.
Qed.

Lemma map_result_length {A B : Type} (f : A -> result B) (l : list A) (l' : list B) :
  map_result f l = Ok l' -> List.length l' = List.length l.
Proof.
  revert l'. induction l as [|x l IH]; intros l' H.
  - now injection H as <-.
  - cbn [map_result] in H. destruct (f x); [| discriminate]. cbn [bind] in H.
    destruct (map_result f l) as [ys|]; [| discriminate].
    cbn [bind] in H. injection H as <-. cbn. now rewrite (IH ys eq_refl).
Qed.

Lemma first_occurrence_next (before : list set_key) (k : set_key) (after : list set_key) :
  first_occurrence (before ++ k :: after) (List.length before) = negb (key_in k before).
Proof.
  unfold first_occurrence.
  rewrite nth_error_app2, Nat.sub_diag by lia. cbn [nth_error].
  rewrite firstn_app, Nat.sub_diag, firstn_all. cbn [firstn]. now rewrite app_nil_r.
Qed.

(** The loop's selection, read position by position. *)
Lemma unseen_positions (items : list json) (keys seen before : list set_key) :
  List.length keys = List.length items ->
  (forall x, In x seen <-> In x before) ->
  unseen seen items keys
  = map snd
      (filter (fun p => first_occurrence (before ++ keys) (fst p))
              (combine (seq (List.length before) (List.length items)) items)).
Proof.
  revert keys seen before.
  induction items as [|it items IH]; intros keys seen before Hlen Hsame.
  - destruct keys; reflexivity.
  - destruct keys as [|k keys]; [discriminate |].
    cbn [unseen List.length seq combine filter fst].
    rewrite first_occurrence_next, (key_in_same k _ _ Hsame).
    assert (Hnext : forall seen',
               (forall x, In x seen' <-> In x (before ++ [k])) ->
               unseen seen' items keys
               = map snd
                   (filter (fun p => first_occurrence (before ++ k :: keys) (fst p))
                           (combine (seq (S (List.length before)) (List.length items)) items))).
    { intros seen' Hs.
      rewrite (IH keys seen' (before ++ [k])%list); [| now injection Hlen | exact Hs].
      rewrite <- app_assoc, length_app. cbn [List.app List.length].
      now rewrite Nat.add_1_r. }
    destruct (key_in k before) eqn:E; cbn [negb map snd].
    + apply Hnext. intros x. rewrite Hsame, in_app_iff. cbn [In].
      apply key_in_true in E. split; [tauto |]. intros [H | [<- | []]]; assumption.
    + f_equal. apply Hnext. intros x. rewrite in_app_iff. cbn [In].
      rewrite Hsame. tauto.
Qed.

(** [dedup] raises what the first key that cannot be computed raises, and
    keeps the first occurrences when every key can. *)
Lemma dedup_first_occurrences (items : list json) :
  dedup items
  = (keys <- map_result set_key_of items ;; Ok (keep_first_occurrences items keys)).
Proof.
  unfold dedup. rewrite dedup_loop_unseen.
  destruct (map_result set_key_of items) as [keys|] eqn:H; [| reflexivity].
  cbn [bind List.app]. f_equal. unfold keep_first_occurrences.
  apply (unseen_positions items keys [] []); [| tauto].
  apply (map_result_length _ _ _ H).
Qed.

Lemma set_key_of_id (item iid : json) :
  get item "id" = Ok iid -> is_none iid = false ->
  set_key_of item = Ok (SetId (py_str iid)).
Proof.
  intros Hid Hn. unfold set_key_of, item_dedup_key. rewrite Hid. cbn [bind].
  now rewrite Hn.
Qed.

Lemma key_in_head (k : set_key) (l : list set_key) : key_in k (k :: l) = true.
Proof.
  apply key_in_true. now left.
Qed.

Lemma dedup_same_key (a b : json) (k : set_key) :
  set_key_of a = Ok k -> set_key_of b = Ok k -> dedup [a; b] = Ok [a].
Proof.
  intros Ha Hb. unfold dedup. cbn [dedup_loop]. rewrite Ha, Hb. cbn [bind].
  change (key_in k []) with false. cbn iota. now rewrite key_in_head.
Qed.

(** C4: with deduplication on, the merger computes the key of every item
    and keeps the items that are the first with their key, in the order of
    the list, dropping every item whose key an earlier item has (it raises
    when a key cannot be computed); with [--no-dedup] the list goes through
    as it is.
    Of two items with the same id the first alone is kept, and both are
    kept under [--no-dedup]. *)
Theorem dedup_keeps_first_occurrences :
  (forall items : list json,
     merge false items
     = (keys <- map_result set_key_of items ;;
        Ok (keep_first_occurrences items keys))) /\
  (forall items : list json, merge true items = Ok items) /\
  (forall a b iid : json,
     get a "id" = Ok iid -> get b "id" = Ok iid -> is_none iid = false ->
     merge false [a; b] = Ok [a] /\ merge true [a; b] = Ok [a; b]).
Proof.
  split; [exact dedup_first_occurrences |].
  split; [reflexivity |].
  intros a b iid Ha Hb Hn. split; [| reflexivity].
  apply (dedup_same_key a b (SetId (py_str iid))); now apply set_key_of_id.
Qed.

Lemma unlocated_key (item : json) (title : string) :
  unlocated item title ->
  item_dedup_key item = Ok (KeyGeo None None (JStr title)).
Proof.
  intros (lat & lon & Hid & Hlat & Hlon & Nlat & Nlon & Ht).
  destruct (get_field _ _ _ Hid) as (_ & d & ->).
  unfold item_dedup_key, coord_text. rewrite Hid. cbn [bind is_none negb get].
  cbn [field] in Hlat, Hlon, Ht. rewrite Hlat, Hlon. cbn [bind].
  rewrite Nlat, Nlon. cbn [bind]. unfold text_field in Ht. cbn [field] in Ht.
  now rewrite Ht.
Qed.

Lemma unlocated_no_wpt (item : json) (title : string) :
  unlocated item title -> build_wpt item = Ok None.
Proof.
  intros (lat & lon & Hid & Hlat & Hlon & Nlat & Nlon & Ht).
  destruct (get_field _ _ _ Hid) as (_ & d & ->).
  unfold build_wpt. cbn [get bind]. cbn [field] in Hlat, Hlon.
  rewrite Hlat, Hlon. cbn [bind]. now rewrite Nlat.
Qed.

Lemma key_unreadable (item : json) :
  reads_location item = false ->
  (forall d, item <> JObj d) \/ get item "id" = Ok JNull ->
  item_dedup_key item = Raise AttributeError.
Proof.
  intros Hr [Hno | Hid].
  - destruct item; try reflexivity. now elim (Hno d).
  - destruct (get_field _ _ _ Hid) as (_ & d & ->).
    unfold item_dedup_key. rewrite Hid. cbn [bind is_none negb get].
    unfold reads_location in Hr.
    destruct (py_or (dict_get d "location") (JObj [])); try reflexivity.
    discriminate.
Qed.

(** C5, as the code has it: the key of an item with an id is
    [("id", str(id))]; the key of an item without one, whose location can be
    read, is [("geo", lat, lon, title)], [lat] and [lon] being the
    coordinate to seven decimals when it is a number and [None] when it is
    not.  An int is formatted as the float of its value and a boolean as the
    int 1 or 0 is; an int too large for a float raises, and so the key
    does.  There is no key either, but [AttributeError], for a value that is
    no object and for an item without id whose location cannot be read.
    Two items without id and without a number in their location, and with
    the same title, have one key: deduplication keeps the first alone,
    though neither gets a waypoint. *)
Theorem dedup_key_cases :
  (forall item iid : json,
     get item "id" = Ok iid -> is_none iid = false ->
     item_dedup_key item = Ok (KeyId (py_str iid))) /\
  (forall (item : json) (loc : list (string * json)),
     get item "id" = Ok JNull ->
     py_or (field item "location") (JObj []) = JObj loc ->
     item_dedup_key item
     = (lat7 <- coord_text (dict_get loc "lat") ;;
        lon7 <- coord_text (dict_get loc "lng") ;;
        Ok (KeyGeo lat7 lon7 (text_field item "title")))) /\
  ((forall v : json, is_number v = false -> coord_text v = Ok None) /\
   (forall f : spec_float, coord_text (JFloat f) = Ok (Some (float_fmt7 f))) /\
   (forall (z : Z) (f : spec_float),
      float_of_int z = Ok f -> coord_text (JInt z) = Ok (Some (float_fmt7 f))) /\
   (forall (z : Z) (e : exn),
      float_of_int z = Raise e -> coord_text (JInt z) = Raise OverflowError) /\
   (forall b : bool, coord_text (JBool b) = coord_text (JInt (if b then 1 else 0))) /\
   coord_text (JInt 1) = Ok (Some (float_fmt7 (S754_finite false 4503599627370496 (-52)))) /\
   coord_text (JInt 0) = Ok (Some (float_fmt7 (S754_zero false)))) /\
  ((forall item : json,
      (forall d, item <> JObj d) -> item_dedup_key item = Raise AttributeError) /\
   (forall item : json,
      get item "id" = Ok JNull -> reads_location item = false ->
      item_dedup_key item = Raise AttributeError)) /\
  (forall (a b : json) (title : string),
     unlocated a title -> unlocated b title ->
     dedup [a; b] = Ok [a] /\ build_wpt a = Ok None /\ build_wpt b = Ok None).
Proof.
  split.
  { intros item iid Hid Hn. unfold item_dedup_key. rewrite Hid. cbn [bind].
    now rewrite Hn. }
  split.
  { intros item loc Hid Hloc.
    destruct (get_field _ _ _ Hid) as (_ & d & ->).
    unfold item_dedup_key. rewrite Hid. cbn [bind is_none negb get].
    cbn [field] in Hloc. rewrite Hloc. reflexivity. }
  split.
  { split; [intros v Hv; unfold coord_text; now rewrite Hv |].
    split; [reflexivity |].
    split.
    { intros z f Hf. unfold coord_text. cbn [is_number format_7f]. now rewrite Hf. }
    split.
    { intros z e Hf. unfold coord_text. cbn [is_number format_7f].
      unfold float_of_int in *.
      destruct (binary_normalize 53 1024 z 0 false); try discriminate. reflexivity. }
    split; [intros b; reflexivity |].
    split; reflexivity. }
  split.
  { split.
    - intros item Hno. destruct item; try reflexivity. now elim (Hno d).
    - intros item Hid Hr. apply key_unreadable; [exact Hr | now right]. }
  intros a b title Ha Hb.
  split; [| split; eauto using unlocated_no_wpt].
  apply (dedup_same_key a b (SetGeo None None (HStr title)));
    unfold set_key_of; now rewrite (unlocated_key _ title).
Qed.

(** ** Paths *)

Lemma length_append (a b : string) : length (a ++ b) = length a + length b.
Proof.
  induction a as [|x a IH]; simpl; [reflexivity | now rewrite IH].
Qed.

Lemma substring_length (n m : nat) (s : string) :
  length (substring n m s) = Nat.min m (length s - n).
Proof.
  revert n m. induction s as [|c s IH]; intros n m.
  - destruct n, m; reflexivity.
  - destruct n as [|n].
    + destruct m as [|m]; [reflexivity |]. simpl. rewrite IH. now rewrite Nat.sub_0_r.
    + simpl. apply IH.
Qed.

Lemma has_char_app (c : ascii) (a b : string) :
  has_char c (a ++ b) = has_char c a || has_char c b.
Proof.
  induction a as [|x a IH]; simpl; [reflexivity |].
  rewrite IH. now rewrite orb_assoc.
Qed.

Lemma has_char_substring (c : ascii) (n m : nat) (s : string) :
  has_char c s = false -> has_char c (substring n m s) = false.
Proof.
  revert n m. induction s as [|x s IH]; intros n m H.
  - destruct n, m; reflexivity.
  - simpl in H. apply orb_false_iff in H. destruct H as [Hx H].
    destruct n as [|n]; simpl.
    + destruct m as [|m]; [reflexivity |]. simpl. now rewrite Hx, IH.
    + now apply IH.
Qed.

Lemma split_on_parts (c : ascii) (s : string) :
  Forall (fun x => has_char c x = false) (split_on c s).
Proof.
  induction s as [|a s IH]; simpl.
  - repeat constructor.
  - destruct (Ascii.eqb a c) eqn:E.
    + constructor; [reflexivity | exact IH].
    + destruct (split_on c s) as [|h t]; inversion IH; subst;
        constructor; simpl; try rewrite E; auto.
Qed.

Lemma name_no_slash (s : string) : has_char "/" (name (path s)) = false.
Proof.
  unfold name, path. cbn [parts].
  assert (H : Forall (fun x => has_char "/" x = false) (filter is_part (split_on "/" s))).
  { apply Forall_forall. intros x Hx. apply filter_In in Hx.
    pose proof (split_on_parts "/" s) as Hall.
    rewrite Forall_forall in Hall. now apply Hall. }
  induction H as [|x l Hx Hl IH]; [reflexivity |].
  destruct l; [exact Hx | exact IH].
Qed.

Lemma stem_no_slash (s : string) : has_char "/" (stem (path s)) = false.
Proof.
  unfold stem. destruct (suffix_at (name (path s)));
    [apply has_char_substring |]; apply name_no_slash.
Qed.

Lemma suffix_at_bounds (nm : string) (i : nat) :
  suffix_at nm = Some i -> 0 < i /\ i < length nm - 1.
Proof.
  unfold suffix_at. destruct (rfind "." nm) as [j|]; [| discriminate].
  destruct ((0 <? j)%nat && (j <? length nm - 1)%nat) eqn:E; [| discriminate].
  intros H. injection H as <-. apply andb_true_iff in E.
  now rewrite !Nat.ltb_lt in E.
Qed.

Lemma not_empty_eqb (s : string) : 0 < length s -> (s =? "") = false.
Proof.
  destruct s; simpl; [lia | reflexivity].
Qed.

(** [p.with_suffix(".gpx")] on a path with a name. *)
Lemma with_suffix_gpx (p : Path) :
  name p <> "" -> with_suffix p ".gpx" = Ok (sibling p (stem p ++ ".gpx")).
Proof.
  intros Hname. unfold with_suffix.
  change (has_char "/" ".gpx") with false.
  change ((negb (".gpx" =? "") && negb (prefix "." ".gpx")) || (".gpx" =? ".")) with false.
  cbn iota. apply String.eqb_neq in Hname. rewrite Hname.
  unfold suffix, stem. destruct (suffix_at (name p)) as [i|] eqn:E; [| reflexivity].
  apply suffix_at_bounds in E.
  assert (Hlen : length (substring i (length (name p) - i) (name p)) = length (name p) - i).
  { rewrite substring_length. lia. }
  rewrite not_empty_eqb by lia. rewrite Hlen.
  replace (length (name p) - (length (name p) - i)) with i by lia. reflexivity.
Qed.

(** [p.with_name(p.stem + "_merged.gpx")] on a path with a name. *)
Lemma with_name_merged (s : string) :
  name (path s) <> "" ->
  with_name (path s) (stem (path s) ++ "_merged.gpx")
  = Ok (sibling (path s) (stem (path s) ++ "_merged.gpx")).
Proof.
  intros Hname. unfold with_name. apply String.eqb_neq in Hname. rewrite Hname.
  assert (H1 : (stem (path s) ++ "_merged.gpx" =? "") = false).
  { apply not_empty_eqb. rewrite length_append. simpl. lia. }
  assert (H2 : (stem (path s) ++ "_merged.gpx" =? ".") = false).
  { apply String.eqb_neq. intros E. apply (f_equal length) in E.
    rewrite length_append in E. simpl in E. lia. }
  now rewrite H1, H2, has_char_app, stem_no_slash.
Qed.

Lemma more_than_one (first : string) (rest : list string) :
  (1 <? List.length (first :: rest))%nat = match rest with [] => false | _ => true end.
Proof.
  destruct rest; reflexivity.
Qed.

(** C8: an explicit output path is the path written to.  Without one the
    path comes from the first source: for a URL, the stem of the URL's path,
    or [merged] when that stem is empty, with the ending; for a file, the
    file's path with its name replaced by its stem with the ending.  The
    ending is [.gpx] for one source and [_merged.gpx] for more: [a.json]
    alone gives [a.gpx], [a.json] and [b.json] give [a_merged.gpx]. *)
Theorem output_path_derivation :
  (forall (srcs : list string) (explicit : option string),
     given explicit = true ->
     derive_output_path srcs explicit = Ok (path (text_of explicit))) /\
  (forall (first : string) (rest : list string) (explicit : option string)
          (parsed_path : string),
     given explicit = false ->
     is_url first = true ->
     urlparse_path first = Ok parsed_path ->
     derive_output_path (first :: rest) explicit
     = Ok (path ((if stem (path parsed_path) =? "" then "merged"
                  else stem (path parsed_path)) ++ ending rest))) /\
  (forall (first : string) (rest : list string) (explicit : option string),
     given explicit = false ->
     is_url first = false ->
     name (path first) <> "" ->
     derive_output_path (first :: rest) explicit
     = Ok (sibling (path first) (stem (path first) ++ ending rest))) /\
  derive_output_path ["a.json"] None = Ok (path "a.gpx") /\
  derive_output_path ["a.json"; "b.json"] None = Ok (path "a_merged.gpx") /\
  (forall srcs : list string,
     derive_output_path srcs (Some "out.gpx") = Ok (path "out.gpx")).
Proof.
  split.
  { intros srcs explicit H. unfold derive_output_path. now rewrite H. }
  split.
  { intros first rest explicit parsed_path Hg Hu Hp.
    unfold derive_output_path. rewrite Hg, Hu, Hp, more_than_one. cbn [bind].
    now destruct rest. }
  split.
  { intros first rest explicit Hg Hu Hname.
    unfold derive_output_path. rewrite Hg, Hu, more_than_one.
    destruct rest; cbn [ending].
    - now apply with_suffix_gpx.
    - now apply with_name_merged. }
  repeat split; reflexivity.
Qed.

(** X2: an item that passes the check on the coordinates, and whose address
    is a text or is not there, gets a waypoint; its opening tag holds the
    text of [lat] as its [lat] and the text of [lng] as its [lon]: the
    digits of an int, [True] or [False] for a boolean, the runtime's [repr]
    for a float. *)
Lemma coordinates_are_written
  (item : json) (loc : list (string * json)) (address : string) :
  field item "location" = JObj loc ->
  is_number (dict_get loc "lat") = true ->
  is_number (dict_get loc "lng") = true ->
  py_or (dict_get loc "address") (JStr "") = JStr address ->
  (exists body,
     build_wpt item
     = Ok (Some (("  <wpt lat=" ++ DQ ++ py_str (dict_get loc "lat") ++ DQ
                  ++ " lon=" ++ DQ ++ py_str (dict_get loc "lng") ++ DQ
                  ++ ">" ++ NL)
                 ++ body))) /\
  (forall z : Z, dict_get loc "lat" = JInt z -> py_str (dict_get loc "lat") = str_int z) /\
  (forall z : Z, dict_get loc "lng" = JInt z -> py_str (dict_get loc "lng") = str_int z) /\
  (forall f : spec_float,
     dict_get loc "lat" = JFloat f -> py_str (dict_get loc "lat") = float_repr f) /\
  (forall f : spec_float,
     dict_get loc "lng" = JFloat f -> py_str (dict_get loc "lng") = float_repr f).
Proof.
  intros Hloc Nlat Nlon Haddr.
  split; [| repeat split; intros x ->; reflexivity].
  destruct (field_obj _ _ _ Hloc) as (d & -> & Hd); [discriminate |].
  assert (Hor : py_or (JObj loc) (JObj []) = JObj loc).
  { destruct loc; [discriminate | reflexivity]. }
  unfold build_wpt. cbn [get bind]. rewrite Hd, Hor. cbn [get bind].
  rewrite Nlat, Nlon, Haddr. cbn [negb orb].
  destruct (join_desc_parts address (py_or (dict_get d "marker") (JStr ""))) as [desc ->].
  cbn [bind]. eexists. reflexivity.
Qed.

(** X3: of two items with one key, deduplication keeps the first. *)
Lemma same_key_collapses (a b : json) (k : set_key) :
  set_key_of a = Ok k -> set_key_of b = Ok k -> dedup [a; b] = Ok [a].
Proof.
  exact (dedup_same_key a b k).
Qed.

(** ** More on [esc] *)

Lemma unescape_char (c : ascii) (rest : string) :
  unescape_from (xmlesc (String c "") ++ rest) 0 = String c (unescape_from rest 0).
Proof.
  destruct c as [[] [] [] [] [] [] [] []]; try reflexivity;
    destruct rest; reflexivity.
Qed.

Lemma unescape_xmlesc (s : string) : unescape (xmlesc s) = s.
Proof.
  unfold unescape. induction s as [|c s IH]; [reflexivity |].
  change (String c s) with (String c "" ++ s).
  now rewrite xmlesc_app, unescape_char, IH.
Qed.

Lemma xmlesc_char_length (c : ascii) :
  (if plain_char c then xmlesc (String c "") = String c ""
   else 1 < length (xmlesc (String c ""))) .
Proof.
  destruct c as [[] [] [] [] [] [] [] []]; vm_compute; try reflexivity; lia.
Qed.

Lemma xmlesc_length (s : string) : length s <= length (xmlesc s).
Proof.
  induction s as [|c s IH]; [apply le_n |].
  change (String c s) with (String c "" ++ s) at 2.
  rewrite xmlesc_app, length_append.
  pose proof (xmlesc_char_length c) as H. destruct (plain_char c).
  - rewrite H. simpl. lia.
  - simpl. lia.
Qed.

Lemma xmlesc_plain (s : string) : xmlesc s = s <-> xml_plain s = true.
Proof.
  induction s as [|c s IH]; [split; reflexivity |].
  change (String c s) with (String c "" ++ s) at 1.
  rewrite xmlesc_app. cbn [xml_plain all_chars].
  pose proof (xmlesc_char_length c) as Hc. pose proof (xmlesc_length s) as Hs.
  destruct (plain_char c); cbn [andb].
  - rewrite Hc. cbn [append]. rewrite <- IH. split; [now intros [= ->] | now intros ->].
  - split; [| discriminate]. intros E. apply (f_equal length) in E.
    rewrite length_append in E. simpl in E. lia.
Qed.

Lemma xmlesc_injective (a b : string) : xmlesc a = xmlesc b -> a = b.
Proof.
  intros H. rewrite <- (unescape_xmlesc a), <- (unescape_xmlesc b).
  exact (f_equal unescape H).
Qed.

(** X4: escaping loses nothing.  Reading the five references back gives the
    text that was escaped, so two texts with one escaped form are one
    text. *)
Theorem esc_is_lossless :
  (forall s : string, unescape (esc (JStr s)) = s) /\
  (forall a b : string, esc (JStr a) = esc (JStr b) -> a = b).
Proof.
  split; [exact unescape_xmlesc | exact xmlesc_injective].
Qed.

(** X5: [esc] leaves a text as it is exactly when the text holds none of the
    five characters [html.escape] replaces, and escaping an escaped text
    changes it again unless the text was such a one: a text escaped twice
    shows its references. *)
Theorem esc_fixes_plain_text_only :
  (forall s : string, esc (JStr s) = s <-> xml_plain s = true) /\
  (forall s : string,
     esc (JStr (esc (JStr s))) = esc (JStr s) <-> xml_plain s = true).
Proof.
  split; [exact xmlesc_plain |].
  intros s. rewrite <- xmlesc_plain.
  change (xmlesc (xmlesc s) = xmlesc s <-> xmlesc s = s). split.
  - apply xmlesc_injective.
  - intros H. now rewrite !H.
Qed.

(** ** What [build_wpt] and [item_dedup_key] read *)

Lemma dict_get_other (d1 d2 : list (string * json)) (k k' : string) (v : json) :
  k <> k' -> dict_get (d1 ++ (k, v) :: d2) k' = dict_get (d1 ++ d2) k'.
Proof.
  intros Hk. induction d1 as [|[k0 v0] d1 IH]; cbn [List.app dict_get].
  - apply String.eqb_neq in Hk. now rewrite Hk.
  - now rewrite IH.
Qed.

Lemma build_wpt_reads (d d' : list (string * json)) :
  (forall k, In k ["location"; "title"; "href"; "marker"; "type"; "status"; "siteId"; "id"] ->
             dict_get d k = dict_get d' k) ->
  build_wpt (JObj d) = build_wpt (JObj d').
Proof.
  intros H. unfold build_wpt. cbn [get bind].
  rewrite (H "location"), (H "title"), (H "href"), (H "marker"), (H "type"),
    (H "status"), (H "siteId"), (H "id") by (cbn; tauto).
  reflexivity.
Qed.

Lemma item_dedup_key_reads (d d' : list (string * json)) :
  (forall k, In k ["id"; "location"; "title"] -> dict_get d k = dict_get d' k) ->
  item_dedup_key (JObj d) = item_dedup_key (JObj d').
Proof.
  intros H. unfold item_dedup_key. cbn [get bind].
  rewrite (H "id"), (H "location"), (H "title") by (cbn; tauto).
  reflexivity.
Qed.

(** X6: an item is read through eight of its keys only, and its key for
    deduplication through three: a member under another name, wherever it
    stands in the item, changes neither the waypoint nor the key.  So
    [href], [marker], [type], [status] and [siteId] play no part in
    deduplication. *)
Theorem other_members_are_ignored
  (d1 d2 : list (string * json)) (k : string) (v : json) :
  (~ In k ["location"; "title"; "href"; "marker"; "type"; "status"; "siteId"; "id"] ->
   build_wpt (JObj (d1 ++ (k, v) :: d2)) = build_wpt (JObj (d1 ++ d2))) /\
  (~ In k ["id"; "location"; "title"] ->
   item_dedup_key (JObj (d1 ++ (k, v) :: d2)) = item_dedup_key (JObj (d1 ++ d2)) /\
   set_key_of (JObj (d1 ++ (k, v) :: d2)) = set_key_of (JObj (d1 ++ d2))).
Proof.
  split.
  - intros Hk. apply build_wpt_reads. intros k' Hk'. apply dict_get_other.
    intros ->. contradiction.
  - intros Hk.
    assert (H : item_dedup_key (JObj (d1 ++ (k, v) :: d2)) = item_dedup_key (JObj (d1 ++ d2))).
    { apply item_dedup_key_reads. intros k' Hk'. apply dict_get_other.
      intros ->. contradiction. }
    split; [exact H | unfold set_key_of; now rewrite H].
Qed.

Lemma py_or_true (a b : json) : truthy a = true -> py_or a b = a.
Proof.
  intros H. unfold py_or. now rewrite H.
Qed.

(** X7: what [build_wpt] raises.  A value that is no object raises
    [AttributeError], for it has no [get]; so does an object whose location
    is true and no object; and an item with its coordinates whose address is
    true and no text raises [TypeError], for the description cannot be
    joined. *)
Theorem build_wpt_raises :
  (forall item : json,
     (forall d, item <> JObj d) -> build_wpt item = Raise AttributeError) /\
  (forall (item loc : json),
     field item "location" = loc -> truthy loc = true ->
     (forall d, loc <> JObj d) ->
     build_wpt item = Raise AttributeError) /\
  (forall (item : json) (loc : list (string * json)) (address : json),
     field item "location" = JObj loc ->
     is_number (dict_get loc "lat") = true ->
     is_number (dict_get loc "lng") = true ->
     dict_get loc "address" = address -> truthy address = true ->
     (forall s, address <> JStr s) ->
     build_wpt item = Raise TypeError).
Proof.
  split; [| split].
  - intros item H. destruct item; try reflexivity. now contradiction (H d).
  - intros item loc Hloc Ht Hn.
    destruct item; cbn [field] in Hloc; try (subst loc; discriminate).
    unfold build_wpt. cbn [get bind]. rewrite Hloc. unfold py_or. rewrite Ht.
    destruct loc; try reflexivity. now contradiction (Hn d0).
  - intros item loc address Hloc Nlat Nlon Haddr Ht Hn.
    destruct (field_obj _ _ _ Hloc) as (d & -> & Hd); [discriminate |].
    assert (Hor : py_or (JObj loc) (JObj []) = JObj loc).
    { destruct loc; [discriminate | reflexivity]. }
    unfold build_wpt. cbn [get bind]. rewrite Hd, Hor. cbn [get bind].
    rewrite Nlat, Nlon, Haddr. cbn [negb orb].
    rewrite (py_or_true address (JStr "") Ht), Ht. cbn [List.app join_values].
    destruct address; try reflexivity; try discriminate. now contradiction (Hn s).
Qed.

(** ** More on [build_gpx] *)

Lemma gpx_head_parts (now_iso : string) (gen : json) :
  gpx_head now_iso gen
  = gpx_before_creator ++ esc gen ++ gpx_before_time ++ esc (JStr now_iso) ++ gpx_after_time.
Proof.
  unfold gpx_head, gpx_before_creator, gpx_before_time, gpx_after_time.
  rewrite !append_assoc. reflexivity.
Qed.

(** X8: the clock reaches the document in the time element only.  When
    [build_gpx] writes a document, the documents it writes at any two times
    are one text before the time and one text after it. *)
Theorem clock_only_in_time
  (now_iso : string) (items : list json) (meta_any : json) (gpx : string) :
  build_gpx now_iso items meta_any = Ok gpx ->
  exists before after : string,
    forall now_iso' : string,
      build_gpx now_iso' items meta_any
      = Ok (before ++ "<time>" ++ esc (JStr now_iso') ++ "</time>" ++ after).
Proof.
  unfold build_gpx.
  destruct (get (py_or meta_any (JObj [])) "generator") as [gen0|]; [| discriminate].
  destruct (map_result build_wpt items) as [ws|]; [| discriminate].
  intros _. cbn [bind]. cbv zeta.
  exists (gpx_before_creator ++ esc (py_or gen0 (JStr "json2gpx"))
          ++ DQ ++ NL
          ++ "     xmlns=" ++ DQ ++ "http://www.topografix.com/GPX/1/1" ++ DQ ++ NL
          ++ "     xmlns:xsi=" ++ DQ ++ "http://www.w3.org/2001/XMLSchema-instance" ++ DQ ++ NL
          ++ "     xmlns:sa=" ++ DQ ++ "https://streetart.media/ns/1.0" ++ DQ ++ NL
          ++ "     xsi:schemaLocation=" ++ DQ ++ "http://www.topografix.com/GPX/1/1" ++ NL
          ++ "                         http://www.topografix.com/GPX/1/1/gpx.xsd"
          ++ DQ ++ ">" ++ NL
          ++ "  <metadata>" ++ NL ++ "    "),
         (NL ++ "  </metadata>" ++ NL ++ join NL (flat_map kept_wpt ws) ++ gpx_tail).
  intros now_iso'. f_equal. unfold gpx_head, gpx_before_creator.
  rewrite !append_assoc. reflexivity.
Qed.

Lemma build_gpx_text (now_iso : string) (items : list json) (meta_any : json) (gpx : string) :
  build_gpx now_iso items meta_any = Ok gpx ->
  exists gen0 ws,
    get (py_or meta_any (JObj [])) "generator" = Ok gen0 /\
    map_result build_wpt items = Ok ws /\
    gpx = gpx_head now_iso (py_or gen0 (JStr "json2gpx"))
          ++ join NL (flat_map kept_wpt ws) ++ gpx_tail.
Proof.
  unfold build_gpx. intros H.
  destruct (get (py_or meta_any (JObj [])) "generator") as [gen0|]; [| discriminate].
  destruct (map_result build_wpt items) as [ws|]; [| discriminate].
  exists gen0, ws. repeat split. symmetry. now injection H.
Qed.

(** X9: the creator of the document.  A meta that is false, or an object
    whose generator is false or not there, gives the document no meta
    gives, with the creator [json2gpx]; a meta that is true and no object
    raises [AttributeError] whatever the items; and a generator that is true
    is the creator, escaped. *)
Theorem creator_of_the_document :
  (forall (now_iso : string) (items : list json) (meta_any : json),
     truthy meta_any = false \/
     (exists d, meta_any = JObj d /\ truthy (dict_get d "generator") = false) ->
     build_gpx now_iso items meta_any = build_gpx now_iso items JNull) /\
  (forall (now_iso : string) (items : list json) (meta_any : json),
     truthy meta_any = true -> (forall d, meta_any <> JObj d) ->
     build_gpx now_iso items meta_any = Raise AttributeError) /\
  (forall (now_iso : string) (items : list json) (d : list (string * json)) (gpx : string),
     truthy (dict_get d "generator") = true ->
     build_gpx now_iso items (JObj d) = Ok gpx ->
     exists rest,
       gpx = gpx_before_creator ++ esc (dict_get d "generator") ++ DQ ++ rest) /\
  (forall (now_iso : string) (items : list json) (gpx : string),
     build_gpx now_iso items JNull = Ok gpx ->
     exists rest, gpx = gpx_before_creator ++ "json2gpx" ++ DQ ++ rest).
Proof.
  split; [| split; [| split]].
  - intros now_iso items meta_any [Hf | (d & -> & Hg)]; unfold build_gpx.
    + unfold py_or at 1 3. now rewrite Hf.
    + unfold py_or at 1 3. cbn [truthy get bind dict_get].
      destruct d as [|m d]; [reflexivity |]. cbn [get bind].
      unfold py_or at 1. rewrite Hg. reflexivity.
  - intros now_iso items meta_any Ht Hn. unfold build_gpx.
    rewrite (py_or_true _ _ Ht). destruct meta_any; try reflexivity.
    now contradiction (Hn d).
  - intros now_iso items d gpx Hg H.
    assert (Hd : py_or (JObj d) (JObj []) = JObj d).
    { destruct d; [discriminate | reflexivity]. }
    destruct (build_gpx_text _ _ _ _ H) as (gen0 & ws & Hgen & _ & ->).
    rewrite Hd in Hgen. cbn [get] in Hgen. injection Hgen as <-.
    rewrite (py_or_true _ (JStr "json2gpx") Hg), gpx_head_parts, !append_assoc.
    eexists. unfold gpx_before_time. rewrite !append_assoc. reflexivity.
  - intros now_iso items gpx H.
    destruct (build_gpx_text _ _ _ _ H) as (gen0 & ws & Hgen & _ & ->).
    cbn [py_or truthy get dict_get] in Hgen. injection Hgen as <-.
    rewrite gpx_head_parts, !append_assoc.
    eexists. unfold gpx_before_time. rewrite !append_assoc. reflexivity.
Qed.

Lemma build_wpt_kept (item : json) (w : string) :
  build_wpt item = Ok (Some w) -> kept_wpt (Some w) = [w].
Proof.
  intros H. destruct (build_wpt_some _ _ H) as (lat & lon & desc & _ & _ & _ & _ & ->).
  reflexivity.
Qed.

Lemma map_result_middle {A B : Type} (f : A -> result B) (l1 : list A) (x : A)
  (l2 : list A) (ys : list B) :
  map_result f (l1 ++ x :: l2) = Ok ys ->
  exists y1 y y2,
    ys = (y1 ++ y :: y2)%list /\
    map_result f l1 = Ok y1 /\ f x = Ok y /\ map_result f l2 = Ok y2.
Proof.
  rewrite map_result_app. cbn [map_result].
  destruct (map_result f l1) as [y1|]; [| discriminate]. cbn [bind].
  destruct (f x) as [y|]; [| discriminate]. cbn [bind].
  destruct (map_result f l2) as [y2|]; [| discriminate]. cbn [bind].
  intros H. injection H as <-. now exists y1, y, y2.
Qed.

Lemma map_result_raises {A B : Type} (f : A -> result B) (l : list A) (x : A) (e : exn) :
  In x l -> f x = Raise e -> exists e', map_result f l = Raise e'.
Proof.
  intros Hin Hx. induction l as [|a l IH]; [destruct Hin |].
  cbn [map_result]. destruct Hin as [-> | Hin].
  - rewrite Hx. now exists e.
  - destruct (f a); [| now eexists]. cbn [bind].
    destruct (IH Hin) as [e' ->]. now exists e'.
Qed.

Lemma join_middle (sep : string) (l1 : list string) (x : string) (l2 : list string) :
  exists a c, join sep (l1 ++ x :: l2) = a ++ x ++ c.
Proof.
  unfold join. induction l1 as [|y l1 (a & c & IH)].
  - destruct l2 as [|z l2].
    + exists "", "". cbn. now rewrite append_nil_r.
    + exists "", (sep ++ String.concat sep (z :: l2)). reflexivity.
  - exists (y ++ sep ++ a), c.
    change ((y :: l1) ++ x :: l2)%list with (y :: (l1 ++ x :: l2))%list.
    cbn [String.concat]. destruct (l1 ++ x :: l2)%list eqn:E.
    + now destruct l1.
    + rewrite IH, !append_assoc. reflexivity.
Qed.

Lemma join_two (sep : string) (l1 : list string) (x : string) (l2 : list string)
  (y : string) (l3 : list string) :
  exists a b c, join sep (l1 ++ x :: l2 ++ y :: l3) = a ++ x ++ b ++ y ++ c.
Proof.
  unfold join. induction l1 as [|z l1 (a & b & c & IH)].
  - destruct (join_middle sep l2 y l3) as (a & c & H). unfold join in H.
    exists "", (sep ++ a), c. cbn [List.app String.concat].
    destruct (l2 ++ y :: l3)%list eqn:E; [now destruct l2 |].
    rewrite H, !append_assoc. reflexivity.
  - exists (z ++ sep ++ a), b, c.
    change ((z :: l1) ++ x :: l2 ++ y :: l3)%list
      with (z :: (l1 ++ x :: l2 ++ y :: l3))%list.
    cbn [String.concat]. destruct (l1 ++ x :: l2 ++ y :: l3)%list eqn:E.
    + now destruct l1.
    + rewrite IH, !append_assoc. reflexivity.
Qed.

(** X10: the waypoints stand in the document in the order of the items:
    when an item comes before another and each gets a waypoint, the text of
    the first comes before the text of the second. *)
Theorem waypoints_follow_the_items
  (now_iso : string) (before : list json) (x : json) (between : list json) (y : json)
  (after : list json) (meta_any : json) (gpx wx wy : string) :
  build_gpx now_iso (before ++ x :: between ++ y :: after) meta_any = Ok gpx ->
  build_wpt x = Ok (Some wx) ->
  build_wpt y = Ok (Some wy) ->
  exists a b c : string, gpx = a ++ wx ++ b ++ wy ++ c.
Proof.
  intros H Hx Hy.
  destruct (build_gpx_text _ _ _ _ H) as (gen0 & ws & _ & Hws & ->).
  destruct (map_result_middle _ _ _ _ _ Hws) as (w1 & ox & wrest & -> & _ & Hox & Hrest).
  destruct (map_result_middle _ _ _ _ _ Hrest) as (w2 & oy & w3 & -> & _ & Hoy & _).
  rewrite Hx in Hox. rewrite Hy in Hoy. injection Hox as <-. injection Hoy as <-.
  rewrite flat_map_app. cbn [flat_map]. rewrite flat_map_app. cbn [flat_map].
  rewrite (build_wpt_kept _ _ Hx), (build_wpt_kept _ _ Hy). cbn [List.app].
  destruct (join_two NL (flat_map kept_wpt w1) wx (flat_map kept_wpt w2) wy
              (flat_map kept_wpt w3)) as (a & b & c & ->).
  exists (gpx_head now_iso (py_or gen0 (JStr "json2gpx")) ++ a), b, (c ++ gpx_tail).
  now rewrite !append_assoc.
Qed.

(** X11: an item on which [build_wpt] raises leaves no document.
    [build_gpx] raises on a list that holds it, wherever it stands, and a
    run whose merged items hold it ends on the exception, with no file. *)
Theorem one_bad_item_fails_the_run :
  (forall (now_iso : string) (items : list json) (meta_any : json) (item : json) (e : exn),
     In item items -> build_wpt item = Raise e ->
     exists e', build_gpx now_iso items meta_any = Raise e') /\
  (forall (w : World) (now_iso : string) (args : Args)
          (all_items items : list json) (any_meta item : json) (e : exn),
     load_sources w (sources args) [] JNull = Return (all_items, any_meta) ->
     merge (no_dedup args) all_items = Ok items ->
     In item items -> build_wpt item = Raise e ->
     exists e', main w now_iso args = Uncaught e' /\
                file_written (main w now_iso args) = None).
Proof.
  assert (H : forall now_iso items meta_any item e,
             In item items -> build_wpt item = Raise e ->
             exists e', build_gpx now_iso items meta_any = Raise e').
  { intros now_iso items meta_any item e Hin He. unfold build_gpx.
    destruct (get (py_or meta_any (JObj [])) "generator"); [| now eexists].
    cbn [bind]. destruct (map_result_raises _ _ _ _ Hin He) as [e' ->]. now exists e'. }
  split; [exact H |].
  intros w now_iso args all_items items any_meta item e Hl Hm Hin He.
  destruct (H now_iso items any_meta item e Hin He) as [e' He'].
  exists e'. unfold main. rewrite Hl, Hm. cbn [bind]. rewrite He'. now split.
Qed.

(** ** More on deduplication *)

Lemma map_result_Forall2 {A B : Type} (f : A -> result B) (l : list A) (ys : list B) :
  map_result f l = Ok ys <-> Forall2 (fun x y => f x = Ok y) l ys.
Proof.
  revert ys. induction l as [|x l IH]; intros ys; cbn [map_result].
  - split; [intros [= <-]; constructor | intros H; now inversion H].
  - split.
    + destruct (f x) as [y|] eqn:E; [| discriminate]. cbn [bind].
      destruct (map_result f l) as [ys'|]; [| discriminate]. cbn [bind].
      intros [= <-]. constructor; [exact E | now apply IH].
    + intros H. inversion H as [|? y ? ys' Hx Hl]; subst.
      rewrite Hx. cbn [bind]. apply IH in Hl. now rewrite Hl.
Qed.

Lemma dedup_ok (items kept : list json) :
  dedup items = Ok kept <->
  exists keys, map_result set_key_of items = Ok keys /\ kept = unseen [] items keys.
Proof.
  unfold dedup. rewrite dedup_loop_unseen.
  destruct (map_result set_key_of items) as [keys|]; cbn [bind List.app]; split.
  - intros [= <-]. now exists keys.
  - intros (keys' & [= <-] & ->). reflexivity.
  - discriminate.
  - intros (keys' & H & _). discriminate.
Qed.

Lemma key_in_false (k : set_key) (l : list set_key) : key_in k l = false <-> ~ In k l.
Proof.
  rewrite <- key_in_true. destruct (key_in k l); split; congruence.
Qed.

Lemma unseen_subsequence (seen : list set_key) (items : list json) (keys : list set_key) :
  List.length keys = List.length items ->
  subsequence (unseen seen items keys) items.
Proof.
  revert seen keys. induction items as [|it items IH]; intros seen keys Hlen.
  - destruct keys; constructor.
  - destruct keys as [|k keys]; [discriminate |]. injection Hlen as Hlen.
    cbn [unseen]. destruct (key_in k seen); constructor; now apply IH.
Qed.

(** The keys of the items the loop keeps: pairwise distinct, and the keys of
    the list that were not seen before. *)
Lemma unseen_keys (seen : list set_key) (items : list json) (keys : list set_key) :
  Forall2 (fun it k => set_key_of it = Ok k) items keys ->
  exists ks,
    Forall2 (fun it k => set_key_of it = Ok k) (unseen seen items keys) ks /\
    NoDup ks /\
    forall k, In k ks <-> In k keys /\ ~ In k seen.
Proof.
  intros H. revert seen. induction H as [|it k items keys Hit _ IH]; intros seen.
  - exists []. repeat split; try constructor; cbn; tauto.
  - cbn [unseen]. destruct (key_in k seen) eqn:E.
    + destruct (IH seen) as (ks & Hks & Hnd & Hin). exists ks.
      split; [exact Hks |]. split; [exact Hnd |].
      intros k'. rewrite Hin. cbn [In]. apply key_in_true in E.
      split; [tauto |]. intros [[<- | Hk] Hs]; [contradiction | tauto].
    + apply key_in_false in E.
      destruct (IH (k :: seen)) as (ks & Hks & Hnd & Hin). exists (k :: ks).
      split; [now constructor |]. split.
      * constructor; [| exact Hnd]. intros Hk. apply Hin in Hk. cbn in Hk. tauto.
      * intros k'. cbn [In]. rewrite Hin. cbn [In].
        destruct (set_key_eq_dec k k') as [<- | Hne]; tauto.
Qed.

Lemma unseen_all (seen : list set_key) (items : list json) (keys : list set_key) :
  List.length keys = List.length items ->
  NoDup keys -> (forall k, In k keys -> ~ In k seen) ->
  unseen seen items keys = items.
Proof.
  revert seen keys. induction items as [|it items IH]; intros seen keys Hlen Hnd Hs.
  - now destruct keys.
  - destruct keys as [|k keys]; [discriminate |]. injection Hlen as Hlen.
    inversion Hnd as [|? ? Hk Hnd']; subst. cbn [unseen].
    rewrite (proj2 (key_in_false k seen)) by (apply Hs; now left).
    f_equal. apply IH; try assumption.
    intros k' Hk' [<- | Hin]; [contradiction |]. apply (Hs k'); [now right | exact Hin].
Qed.

Lemma unseen_none (seen : list set_key) (items : list json) (keys : list set_key) :
  (forall k, In k keys -> In k seen) -> unseen seen items keys = [].
Proof.
  revert seen keys. induction items as [|it items IH]; intros seen keys Hs;
    [now destruct keys |].
  destruct keys as [|k keys]; [reflexivity |]. cbn [unseen].
  rewrite (proj2 (key_in_true k seen)) by (apply Hs; now left).
  apply IH. intros k' Hk'. apply Hs. now right.
Qed.

Lemma unseen_same (seen seen' : list set_key) (items : list json) (keys : list set_key) :
  (forall k, In k seen <-> In k seen') ->
  unseen seen items keys = unseen seen' items keys.
Proof.
  revert seen seen' keys. induction items as [|it items IH]; intros seen seen' keys Hs;
    [now destruct keys |].
  destruct keys as [|k keys]; [reflexivity |]. cbn [unseen].
  rewrite (key_in_same k _ _ Hs). destruct (key_in k seen').
  - now apply IH.
  - f_equal. apply IH. intros k'. cbn [In]. now rewrite Hs.
Qed.

Lemma unseen_app (seen : list set_key) (a b : list json) (ka kb : list set_key) :
  List.length ka = List.length a ->
  unseen seen (a ++ b) (ka ++ kb)
  = (unseen seen a ka ++ unseen (ka ++ seen) b kb)%list.
Proof.
  revert seen ka. induction a as [|it a IH]; intros seen ka Hlen.
  - destruct ka; [reflexivity | discriminate].
  - destruct ka as [|k ka]; [discriminate |]. injection Hlen as Hlen.
    cbn [List.app unseen]. destruct (key_in k seen) eqn:E.
    + rewrite (IH seen ka Hlen). f_equal. apply unseen_same.
      intros k'. cbn [List.app In]. rewrite !in_app_iff.
      apply key_in_true in E. split; intros H; intuition (subst; auto).
    + rewrite (IH (k :: seen) ka Hlen). cbn [List.app]. do 2 f_equal. apply unseen_same.
      intros k'. cbn [List.app In]. rewrite !in_app_iff. cbn [In]. tauto.
Qed.

Lemma Forall2_length_keys (items : list json) (keys : list set_key) :
  Forall2 (fun it k => set_key_of it = Ok k) items keys ->
  List.length keys = List.length items.
Proof.
  induction 1; cbn; congruence.
Qed.

(** X12: what deduplication returns.  The items kept are items of the list,
    in its order; their keys are pairwise distinct; and every key of the
    list is the key of an item kept. *)
Theorem dedup_keeps_one_item_per_key (items kept : list json) :
  dedup items = Ok kept ->
  subsequence kept items /\
  exists keys kept_keys,
    map_result set_key_of items = Ok keys /\
    map_result set_key_of kept = Ok kept_keys /\
    NoDup kept_keys /\
    forall k, In k kept_keys <-> In k keys.
Proof.
  intros H. apply dedup_ok in H. destruct H as (keys & Hkeys & ->).
  pose proof (proj1 (map_result_Forall2 _ _ _) Hkeys) as HF.
  split.
  - apply unseen_subsequence, (Forall2_length_keys _ _ HF).
  - destruct (unseen_keys [] items keys HF) as (ks & Hks & Hnd & Hin).
    exists keys, ks. repeat split; try assumption.
    + now apply map_result_Forall2.
    + apply Hin. + intros Hk. apply Hin. cbn. tauto.
Qed.

(** X13: deduplication is idempotent, and it leaves a list whose keys are
    pairwise distinct as it is. *)
Theorem dedup_is_idempotent :
  (forall items kept : list json,
     dedup items = Ok kept -> dedup kept = Ok kept) /\
  (forall (items : list json) (keys : list set_key),
     map_result set_key_of items = Ok keys -> NoDup keys ->
     dedup items = Ok items).
Proof.
  assert (Hid : forall items keys,
             map_result set_key_of items = Ok keys -> NoDup keys ->
             dedup items = Ok items).
  { intros items keys Hkeys Hnd. apply dedup_ok. exists keys. split; [exact Hkeys |].
    symmetry. apply unseen_all; [| exact Hnd | intros k _ []].
    apply Forall2_length_keys. now apply map_result_Forall2. }
  split; [| exact Hid].
  intros items kept H. apply dedup_ok in H. destruct H as (keys & Hkeys & ->).
  pose proof (proj1 (map_result_Forall2 _ _ _) Hkeys) as HF.
  destruct (unseen_keys [] items keys HF) as (ks & Hks & Hnd & _).
  apply (Hid _ ks); [now apply map_result_Forall2 | exact Hnd].
Qed.

Lemma map_result_app_ok {A B : Type} (f : A -> result B) (a b : list A) (ys : list B) :
  map_result f (a ++ b) = Ok ys ->
  exists ya yb, ys = (ya ++ yb)%list /\ map_result f a = Ok ya /\ map_result f b = Ok yb.
Proof.
  rewrite map_result_app.
  destruct (map_result f a) as [ya|]; [| discriminate]. cbn [bind].
  destruct (map_result f b) as [yb|]; [| discriminate]. cbn [bind].
  intros [= <-]. now exists ya, yb.
Qed.

(** X14: items that follow do not change what is kept of the items before
    them.  The items kept of a list followed by another are the items kept
    of the first, then items of the second in their order; and a list
    followed by itself keeps what the list alone keeps. *)
Theorem dedup_of_the_first_list_stands :
  (forall a b kept : list json,
     dedup (a ++ b) = Ok kept ->
     exists kept_a kept_b,
       dedup a = Ok kept_a /\ kept = (kept_a ++ kept_b)%list /\ subsequence kept_b b) /\
  (forall items kept : list json,
     dedup items = Ok kept -> dedup (items ++ items) = Ok kept).
Proof.
  split.
  - intros a b kept H. apply dedup_ok in H. destruct H as (keys & Hkeys & ->).
    destruct (map_result_app_ok _ _ _ _ Hkeys) as (ka & kb & -> & Ha & Hb).
    pose proof (Forall2_length_keys _ _ (proj1 (map_result_Forall2 _ _ _) Ha)) as Hla.
    pose proof (Forall2_length_keys _ _ (proj1 (map_result_Forall2 _ _ _) Hb)) as Hlb.
    exists (unseen [] a ka), (unseen (ka ++ []) b kb). split; [| split].
    + apply dedup_ok. now exists ka.
    + now apply unseen_app.
    + now apply unseen_subsequence.
  - intros items kept H. apply dedup_ok in H. destruct H as (keys & Hkeys & ->).
    pose proof (Forall2_length_keys _ _ (proj1 (map_result_Forall2 _ _ _) Hkeys)) as Hl.
    apply dedup_ok. exists (keys ++ keys)%list. split.
    + rewrite map_result_app, Hkeys. reflexivity.
    + rewrite (unseen_app [] items items keys keys Hl).
      rewrite (unseen_none (keys ++ []) items keys), app_nil_r; [reflexivity |].
      intros k Hk. apply in_app_iff. now left.
Qed.

Lemma dedup_nodup (items : list json) (keys : list set_key) :
  map_result set_key_of items = Ok keys -> NoDup keys -> dedup items = Ok items.
Proof.
  intros Hkeys Hnd. apply dedup_ok. exists keys. split; [exact Hkeys |].
  symmetry. apply unseen_all; [| exact Hnd | intros k _ []].
  apply Forall2_length_keys. now apply map_result_Forall2.
Qed.

Lemma dedup_two_keys (a b : json) (ka kb : set_key) :
  set_key_of a = Ok ka -> set_key_of b = Ok kb -> ka <> kb -> dedup [a; b] = Ok [a; b].
Proof.
  intros Ha Hb Hne. apply (dedup_nodup _ [ka; kb]).
  - cbn [map_result]. now rewrite Ha, Hb.
  - repeat constructor; cbn; intuition congruence.
Qed.

Lemma set_key_without_id (item : json) (k : set_key) :
  get item "id" = Ok JNull -> set_key_of item = Ok k ->
  exists lat lon title, k = SetGeo lat lon title.
Proof.
  intros Hid. unfold set_key_of.
  assert (Hk : forall k', item_dedup_key item = Ok k' ->
                 exists lat lon title, k' = KeyGeo lat lon title).
  { intros k'. unfold item_dedup_key. rewrite Hid. cbn [bind is_none negb].
    destruct (get item "location"); cbn [bind]; [| discriminate].
    destruct (get _ "lat"); cbn [bind]; [| discriminate].
    destruct (get _ "lng"); cbn [bind]; [| discriminate].
    destruct (get item "title"); cbn [bind]; [| discriminate].
    destruct (coord_text _); cbn [bind]; [| discriminate].
    destruct (coord_text _); cbn [bind]; [| discriminate].
    intros [= <-]. now eexists _, _, _. }
  destruct (item_dedup_key item) as [k' |]; cbn [bind]; [| discriminate].
  destruct (Hk k' eq_refl) as (lat & lon & title & ->). cbn [hash_key].
  destruct (hash_value title); cbn [bind]; [| discriminate].
  intros [= <-]. now eexists _, _, _.
Qed.

(** X15: ids are compared as texts.  Two items whose ids have one text, as
    the number 1 and the text 1 have, are one item for deduplication; two
    items whose ids have different texts are two; and an item with an id is
    never taken for an item without one. *)
Theorem ids_are_compared_as_texts :
  (forall a b ia ib : json,
     get a "id" = Ok ia -> get b "id" = Ok ib ->
     is_none ia = false -> is_none ib = false ->
     (py_str ia = py_str ib -> dedup [a; b] = Ok [a]) /\
     (py_str ia <> py_str ib -> dedup [a; b] = Ok [a; b])) /\
  (forall (a b ia : json) (kb : set_key),
     get a "id" = Ok ia -> is_none ia = false ->
     get b "id" = Ok JNull -> set_key_of b = Ok kb ->
     dedup [a; b] = Ok [a; b] /\ dedup [b; a] = Ok [b; a]).
Proof.
  split.
  - intros a b ia ib Ha Hb Na Nb.
    pose proof (set_key_of_id _ _ Ha Na) as Ka.
    pose proof (set_key_of_id _ _ Hb Nb) as Kb.
    split; intros H.
    + rewrite <- H in Kb. apply (dedup_same_key _ _ _ Ka Kb).
    + apply (dedup_two_keys _ _ _ _ Ka Kb). congruence.
  - intros a b ia kb Ha Na Hb Kb.
    pose proof (set_key_of_id _ _ Ha Na) as Ka.
    destruct (set_key_without_id _ _ Hb Kb) as (lat & lon & title & ->).
    split; [apply (dedup_two_keys _ _ _ _ Ka Kb) | apply (dedup_two_keys _ _ _ _ Kb Ka)];
      discriminate.
Qed.

(** X16: a key that cannot be computed stops the run under deduplication
    only.  When [item_dedup_key] or the hashing of its tuple raises on an
    item of the list, deduplication raises, and [--no-dedup] lets the list
    through.  The title of an item without id is hashed: a title that is a
    list or an object raises [TypeError]. *)
Theorem key_errors_stop_deduplication_only :
  (forall (items : list json) (item : json) (e : exn),
     In item items -> set_key_of item = Raise e ->
     (exists e', merge false items = Raise e') /\ merge true items = Ok items) /\
  (forall (item lat lon title : json) (lat7 lon7 : option string),
     get item "id" = Ok JNull ->
     get (py_or (field item "location") (JObj [])) "lat" = Ok lat ->
     get (py_or (field item "location") (JObj [])) "lng" = Ok lon ->
     coord_text lat = Ok lat7 -> coord_text lon = Ok lon7 ->
     field item "title" = title -> truthy title = true ->
     (exists l, title = JList l) \/ (exists d, title = JObj d) ->
     set_key_of item = Raise TypeError).
Proof.
  split.
  - intros items item e Hin He. split; [| reflexivity].
    unfold merge. cbn [negb]. rewrite dedup_first_occurrences.
    destruct (map_result_raises _ _ _ _ Hin He) as [e' ->]. now exists e'.
  - intros item lat lon title lat7 lon7 Hid Hlat Hlon H7 H7' Ht Htrue Hshape.
    destruct (get_field _ _ _ Hid) as (_ & d & ->). cbn [field] in *.
    unfold set_key_of, item_dedup_key. rewrite Hid. cbn [bind is_none negb get].
    rewrite Hlat, Hlon. cbn [bind]. rewrite H7, H7'. cbn [bind hash_key].
    rewrite Ht, (py_or_true _ _ Htrue).
    destruct Hshape as [[l ->] | [d' ->]]; reflexivity.
Qed.

(** ** The path of the output *)

Lemma split_on_none (c : ascii) (s : string) :
  has_char c s = false -> split_on c s = [s].
Proof.
  induction s as [|a s IH]; intros H; [reflexivity |].
  cbn [has_char] in H. apply orb_false_iff in H. destruct H as [Ha Hs].
  cbn [split_on]. now rewrite Ha, (IH Hs).
Qed.

Lemma path_root_plain (s : string) : has_char "/" s = false -> path_root s = "".
Proof.
  destruct s as [|a s]; [reflexivity |]. intros H.
  destruct a as [[] [] [] [] [] [] [] []]; try reflexivity.
  cbn in H. discriminate.
Qed.

(** A text without slash that is a part is a path of its own. *)
Lemma path_bare (x : string) :
  has_char "/" x = false -> is_part x = true ->
  path x = {| root := ""; parts := [x] |}.
Proof.
  intros Hs Hp. unfold path. rewrite (path_root_plain _ Hs), (split_on_none _ _ Hs).
  cbn [filter]. now rewrite Hp.
Qed.

Lemma substring_split (i : nat) (nm : string) :
  i <= length nm -> substring 0 i nm ++ substring i (length nm - i) nm = nm.
Proof.
  revert i. induction nm as [|c s IH]; intros i Hi.
  - destruct i; [reflexivity | simpl in Hi; lia].
  - destruct i as [|i].
    + cbn. f_equal. specialize (IH 0 (Nat.le_0_l _)).
      rewrite Nat.sub_0_r in IH. destruct s; [reflexivity | exact IH].
    + cbn. f_equal. apply IH. simpl in Hi. lia.
Qed.

Lemma stem_suffix (p : Path) : stem p ++ suffix p = name p.
Proof.
  unfold stem, suffix. destruct (suffix_at (name p)) as [i|] eqn:E.
  - apply suffix_at_bounds in E. apply substring_split. lia.
  - apply append_nil_r.
Qed.

Lemma append_cancel (a b c : string) : a ++ b = a ++ c -> b = c.
Proof.
  induction a as [|x a IH]; simpl; intros H; [exact H |].
  injection H as H. now apply IH.
Qed.

Lemma rfind_at (c : ascii) (s : string) (i m : nat) :
  rfind c s = Some i -> exists t, substring i (S m) s = String c t.
Proof.
  revert i. induction s as [|a s IH]; intros i H; [discriminate |].
  cbn [rfind] in H. destruct (rfind c s) as [j|].
  - injection H as <-. cbn [substring]. now apply IH.
  - destruct (Ascii.eqb_spec a c) as [-> |]; [| discriminate].
    injection H as <-. cbn [substring]. now eexists.
Qed.

(** A suffix is empty or starts with its dot. *)
Lemma suffix_dot (p : Path) : suffix p = "" \/ exists t, suffix p = String "." t.
Proof.
  unfold suffix. destruct (suffix_at (name p)) as [i|] eqn:E; [right | now left].
  pose proof (suffix_at_bounds _ _ E) as [_ Hi].
  unfold suffix_at in E. destruct (rfind "." (name p)) as [j|] eqn:R; [| discriminate].
  destruct ((0 <? j)%nat && (j <? length (name p) - 1)%nat); [| discriminate].
  injection E as ->.
  replace (length (name p) - i) with (S (length (name p) - i - 1)) by lia.
  now apply rfind_at.
Qed.

Lemma sibling_name (p : Path) : name p <> "" -> sibling p (name p) = p.
Proof.
  destruct p as [r ps]. unfold sibling, name. cbn [root parts]. intros H.
  assert (Hps : ps <> []) by (intros ->; now apply H).
  now rewrite <- (app_removelast_last "" Hps).
Qed.

Lemma sibling_inj (p : Path) (a b : string) : sibling p a = sibling p b -> a = b.
Proof.
  unfold sibling. intros H. injection H as H. apply app_inv_head in H. now injection H.
Qed.

Lemma sibling_same (p : Path) (nm : string) :
  name p <> "" -> (sibling p nm = p <-> nm = name p).
Proof.
  intros Hn. split; intros H.
  - rewrite <- (sibling_name p Hn) in H at 2. now apply sibling_inj in H.
  - subst nm. now apply sibling_name.
Qed.

Lemma derive_local (first : string) (rest : list string) (explicit : option string) :
  given explicit = false -> is_url first = false -> name (path first) <> "" ->
  derive_output_path (first :: rest) explicit
  = Ok (sibling (path first) (stem (path first) ++ ending rest)).
Proof.
  intros Hg Hu Hn. unfold derive_output_path. rewrite Hg, Hu, more_than_one.
  destruct rest; cbn [ending]; [now apply with_suffix_gpx | now apply with_name_merged].
Qed.

Lemma derive_nameless (first : string) (rest : list string) (explicit : option string) :
  given explicit = false -> is_url first = false -> name (path first) = "" ->
  derive_output_path (first :: rest) explicit = Raise ValueError.
Proof.
  intros Hg Hu Hn. unfold derive_output_path. rewrite Hg, Hu, more_than_one.
  destruct rest; unfold with_name, with_suffix; rewrite Hn; reflexivity.
Qed.

Lemma filter_none {A : Type} (f : A -> bool) (l : list A) :
  filter f l = [] <-> Forall (fun x => f x = false) l.
Proof.
  induction l as [|x l IH]; cbn [filter]; [now split |].
  destruct (f x) eqn:E; split; intros H.
  - discriminate.
  - inversion H; congruence.
  - constructor; [exact E | now apply IH].
  - inversion H; now apply IH.
Qed.

Lemma is_part_false (x : string) : is_part x = false <-> x = "" \/ x = ".".
Proof.
  unfold is_part. destruct (String.eqb_spec x ""), (String.eqb_spec x "."); cbn;
    intuition congruence.
Qed.

Lemma name_empty (s : string) :
  name (path s) = "" <-> Forall (fun x => x = "" \/ x = ".") (split_on "/" s).
Proof.
  unfold name, path. cbn [parts].
  assert (Hiff : Forall (fun x => x = "" \/ x = ".") (split_on "/" s)
                 <-> Forall (fun x => is_part x = false) (split_on "/" s)).
  { rewrite !Forall_forall. split; intros H x Hx; apply is_part_false; auto. }
  rewrite Hiff, <- filter_none.
  destruct (filter is_part (split_on "/" s)) as [|x l] eqn:E; [now split |].
  split; [| discriminate]. intros H. exfalso.
  assert (Hl : x :: l <> []) by discriminate.
  assert (Hin : In (last (x :: l) "") (filter is_part (split_on "/" s))).
  { rewrite E. rewrite (app_removelast_last "" Hl) at 2.
    apply in_or_app. right. now left. }
  apply filter_In in Hin. destruct Hin as [_ Hp]. rewrite H in Hp. discriminate.
Qed.

(** X17: the file derived from a URL lies in the working directory.  The
    path is relative and has one part, which holds no slash whatever the
    URL's path is, and which is a stem that is not empty followed by the
    ending. *)
Theorem url_output_is_a_bare_name
  (first : string) (rest : list string) (explicit : option string)
  (parsed_path : string) :
  given explicit = false ->
  is_url first = true ->
  urlparse_path first = Ok parsed_path ->
  exists nm st : string,
    derive_output_path (first :: rest) explicit = Ok {| root := ""; parts := [nm] |} /\
    path_str {| root := ""; parts := [nm] |} = nm /\
    has_char "/" nm = false /\
    nm = st ++ ending rest /\ st <> "".
Proof.
  intros Hg Hu Hp.
  set (st := if stem (path parsed_path) =? "" then "merged" else stem (path parsed_path)).
  assert (Hst : has_char "/" st = false).
  { unfold st. destruct (stem (path parsed_path) =? ""); [reflexivity | apply stem_no_slash]. }
  assert (Hne : st <> "").
  { unfold st. destruct (String.eqb_spec (stem (path parsed_path)) ""); [discriminate | assumption]. }
  assert (Hs : has_char "/" (st ++ ending rest) = false).
  { rewrite has_char_app, Hst. now destruct rest. }
  assert (Hpart : is_part (st ++ ending rest) = true).
  { unfold is_part. apply andb_true_iff. split; apply negb_true_iff, String.eqb_neq;
      intros E; apply (f_equal length) in E; rewrite length_append in E;
      destruct rest; simpl in E; lia. }
  exists (st ++ ending rest), st.
  split; [| split; [| split; [exact Hs | split; [reflexivity | exact Hne]]]].
  - unfold derive_output_path. rewrite Hg, Hu, Hp, more_than_one. cbn [bind].
    fold st. rewrite <- (path_bare _ Hs Hpart). now destruct rest.
  - unfold path_str. cbn [root parts join].
    destruct (st ++ ending rest); reflexivity.
Qed.

(** X18: a run on one file named [*.gpx] writes over the file it read.
    With one local source the derived path is the source's own path exactly
    when the source's suffix is [.gpx]; with several sources the derived
    path is never the path of the first. *)
Theorem gpx_source_is_overwritten :
  (forall first : string,
     is_url first = false -> name (path first) <> "" ->
     (derive_output_path [first] None = Ok (path first)
      <-> suffix (path first) = ".gpx")) /\
  (forall (first second : string) (rest : list string),
     is_url first = false ->
     derive_output_path (first :: second :: rest) None <> Ok (path first)).
Proof.
  split.
  - intros first Hu Hn. rewrite (derive_local first [] None eq_refl Hu Hn). cbn [ending].
    split; intros H.
    + assert (H' : sibling (path first) (stem (path first) ++ ".gpx") = path first)
        by congruence.
      apply (sibling_same _ _ Hn) in H'. rewrite <- (stem_suffix (path first)) in H'.
      symmetry. now apply append_cancel in H'.
    + rewrite <- H, stem_suffix. now rewrite sibling_name.
  - intros first second rest Hu H.
    destruct (String.eqb_spec (name (path first)) "") as [Hn | Hn].
    + rewrite (derive_nameless first _ None eq_refl Hu Hn) in H. discriminate.
    + rewrite (derive_local first _ None eq_refl Hu Hn) in H. cbn [ending] in H.
      assert (H' : sibling (path first) (stem (path first) ++ "_merged.gpx") = path first)
        by congruence.
      apply (sibling_same _ _ Hn) in H'. rewrite <- (stem_suffix (path first)) in H'.
      apply append_cancel in H'.
      destruct (suffix_dot (path first)) as [E | [t E]]; rewrite E in H'; discriminate.
Qed.

(** X19: when no path can be derived.  For a local first source
    [derive_output_path] raises [ValueError] exactly when the source has no
    name, that is when it is made of slashes and single dots only, as the
    empty text, [.] and [/] are; an empty text after [-o] counts as no
    [-o]; and without sources the function raises [IndexError]. *)
Theorem output_path_failures :
  (forall (first : string) (rest : list string) (explicit : option string),
     given explicit = false -> is_url first = false ->
     (derive_output_path (first :: rest) explicit = Raise ValueError
      <-> name (path first) = "") /\
     ((exists out, derive_output_path (first :: rest) explicit = Ok out)
      <-> name (path first) <> "")) /\
  (forall s : string,
     name (path s) = "" <-> Forall (fun x => x = "" \/ x = ".") (split_on "/" s)) /\
  (forall srcs : list string,
     derive_output_path srcs (Some "") = derive_output_path srcs None) /\
  (forall explicit : option string,
     given explicit = false -> derive_output_path [] explicit = Raise IndexError).
Proof.
  split; [| split; [exact name_empty | split]].
  - intros first rest explicit Hg Hu.
    destruct (String.eqb_spec (name (path first)) "") as [Hn | Hn].
    + rewrite (derive_nameless _ _ _ Hg Hu Hn). split; [now split |].
      split; [intros [out H]; discriminate | intros H; now elim H].
    + rewrite (derive_local _ _ _ Hg Hu Hn). split; split; try discriminate.
      * intros H. now elim Hn.
      * intros _. exact Hn.
      * intros _. now eexists.
  - reflexivity.
  - intros explicit Hg. unfold derive_output_path. now rewrite Hg.
Qed.

(** ** The run as a whole *)

Lemma load_sources_all (w : World) (srcs : list string) :
  Forall (accepted w) srcs ->
  load_sources w srcs [] JNull
  = Return (flat_map (doc_items w) srcs, first_meta (map (doc_meta w) srcs)).
Proof.
  intros H. rewrite <- (app_nil_r srcs) at 1.
  rewrite (load_sources_app _ _ _ _ _ H). reflexivity.
Qed.

Lemma subsequence_refl {A : Type} (l : list A) : subsequence l l.
Proof.
  induction l; constructor; assumption.
Qed.

Lemma merge_subsequence (flag : bool) (items kept : list json) :
  merge flag items = Ok kept -> subsequence kept items.
Proof.
  destruct flag; cbn [merge negb].
  - intros [= <-]. apply subsequence_refl.
  - intros H. apply dedup_ok in H. destruct H as (keys & Hkeys & ->).
    apply unseen_subsequence. apply (map_result_length _ _ _ Hkeys).
Qed.

(** X20: the items of a run are the items of its sources, in the order of
    the sources and, within a source, in the order of its document.  A run
    that reaches the write has taken every source; the document it writes
    is built from a sublist of the concatenated lists, which is the whole
    of it under [--no-dedup], and from the first meta there is. *)
Theorem sources_are_merged_in_order
  (w : World) (now_iso : string) (args : Args) (s : Saved) :
  main w now_iso args = Return s ->
  Forall (accepted w) (sources args) /\
  exists items : list json,
    merge (no_dedup args) (flat_map (doc_items w) (sources args)) = Ok items /\
    subsequence items (flat_map (doc_items w) (sources args)) /\
    (no_dedup args = true -> items = flat_map (doc_items w) (sources args)) /\
    build_gpx now_iso items (first_meta (map (doc_meta w) (sources args)))
    = Ok (gpx_text s).
Proof.
  intros H.
  destruct (main_return _ _ _ _ H) as (all_items & any_meta & items & Hl & Hm & Hg & _).
  pose proof (load_sources_return _ _ _ _ _ _ Hl) as Hacc.
  rewrite (load_sources_all _ _ Hacc) in Hl. injection Hl as <- <-.
  split; [exact Hacc |]. exists items.
  split; [exact Hm |]. split; [exact (merge_subsequence _ _ _ Hm) |].
  split; [| exact Hg].
  intros Hflag. rewrite Hflag in Hm. cbn in Hm. congruence.
Qed.

Lemma load_sources_refused (w w' : World) (src : string) (rest rest' : list string)
  (all_items all_items' : list json) (any_meta any_meta' : json) :
  w' src = w src -> ~ accepted w src ->
  load_sources w' (src :: rest') all_items' any_meta'
  = load_sources w (src :: rest) all_items any_meta /\
  ((exists e, load_sources w (src :: rest) all_items any_meta = SysExit 1 e) \/
   (exists e, load_sources w (src :: rest) all_items any_meta = SysExit 2 e) \/
   (load_sources w (src :: rest) all_items any_meta = Uncaught AttributeError)) /\
  (forall data, w src = Loaded data -> (forall d, data <> JObj d) ->
     load_sources w (src :: rest) all_items any_meta = Uncaught AttributeError).
Proof.
  intros Hw Hno. cbn [load_sources]. rewrite Hw.
  destruct (w src) as [e | data] eqn:E.
  { split; [reflexivity |]. split; [left; now eexists | discriminate]. }
  destruct data as [| b | z | f | t | l | d];
    try (split; [reflexivity |]; split; [now right; right | reflexivity]).
  cbn [get].
  destruct (py_or (dict_get d "items") (JList [])) as [| b | z | f | t | l | d'] eqn:P;
    try (split; [reflexivity |]; split;
         [right; left; now eexists | intros data [= <-] Hd; now elim (Hd d)]).
  elim Hno. now exists d, l.
Qed.

Lemma flat_map_same {A B : Type} (f g : A -> list B) (l : list A) :
  (forall x, In x l -> f x = g x) -> flat_map f l = flat_map g l.
Proof.
  induction l as [|x l IH]; intros H; cbn [flat_map]; [reflexivity |].
  rewrite (H x (or_introl eq_refl)), IH; [reflexivity |].
  intros y Hy. apply H. now right.
Qed.

Lemma accepted_same (w w' : World) (src : string) :
  w' src = w src -> accepted w src -> accepted w' src.
Proof.
  intros H (d & l & Hw & Hl). exists d, l. now rewrite H.
Qed.

(** X21: the run ends at the first source it does not take, and reads no
    source after it.  Such a run writes no file and exits with 1 or 2; a
    document that is not an object ends it on [AttributeError]; and what
    can be read at the sources that follow changes nothing. *)
Theorem run_stops_at_the_first_refused_source
  (w w' : World) (now_iso : string) (args : Args)
  (taken : list string) (src : string) (rest : list string) :
  sources args = (taken ++ src :: rest)%list ->
  Forall (accepted w) taken ->
  ~ accepted w src ->
  (forall s, In s taken \/ s = src -> w' s = w s) ->
  file_written (main w now_iso args) = None /\
  (exit_code (main w now_iso args) = 1 \/ exit_code (main w now_iso args) = 2)%Z /\
  (forall data, w src = Loaded data -> (forall d, data <> JObj d) ->
     main w now_iso args = Uncaught AttributeError) /\
  main w' now_iso args = main w now_iso args.
Proof.
  intros Hsrcs Htaken Hno Hsame.
  assert (Htaken' : Forall (accepted w') taken).
  { rewrite Forall_forall in *. intros s Hs.
    apply (accepted_same w w'); [apply Hsame; now left | now apply Htaken]. }
  assert (Hitems : flat_map (doc_items w') taken = flat_map (doc_items w) taken).
  { apply flat_map_same. intros s Hs. unfold doc_items. rewrite Hsame; [reflexivity | now left]. }
  assert (Hmetas : map (doc_meta w') taken = map (doc_meta w) taken).
  { apply map_ext_in. intros s Hs. unfold doc_meta. rewrite Hsame; [reflexivity | now left]. }
  unfold main. rewrite Hsrcs.
  rewrite (load_sources_app _ _ _ _ _ Htaken), (load_sources_app _ _ _ _ _ Htaken').
  rewrite Hitems, Hmetas.
  destruct (load_sources_refused w w' src rest rest
              ([] ++ flat_map (doc_items w) taken)%list
              ([] ++ flat_map (doc_items w) taken)%list
              (first_meta (JNull :: map (doc_meta w) taken))
              (first_meta (JNull :: map (doc_meta w) taken))
              (Hsame src (or_intror eq_refl)) Hno) as (-> & Hshape & Hdata).
  split; [| split; [| split; [| reflexivity]]].
  - destruct Hshape as [[e ->] | [[e ->] | ->]]; reflexivity.
  - destruct Hshape as [[e ->] | [[e ->] | ->]]; cbn; auto.
  - intros data Hw Hd. now rewrite (Hdata data Hw Hd).
Qed.

(** ** The test for a URL *)

Lemma lower_char_twice (c : ascii) : lower_char (lower_char c) = lower_char c.
Proof.
  destruct c as [[] [] [] [] [] [] [] []]; reflexivity.
Qed.

Lemma lower_twice (s : string) : lower (lower s) = lower s.
Proof.
  induction s as [|c s IH]; cbn [lower]; [reflexivity |].
  now rewrite lower_char_twice, IH.
Qed.

Lemma lower_app (a b : string) : lower (a ++ b) = lower a ++ lower b.
Proof.
  induction a as [|c a IH]; cbn [lower append]; [reflexivity | now rewrite IH].
Qed.

Lemma prefix_spec (p s : string) : prefix p s = true <-> exists rest, s = p ++ rest.
Proof.
  revert s. induction p as [|a p IH]; intros s.
  - split; [intros _; now exists s | intros _; now destruct s].
  - destruct s as [|b s]; cbn [prefix].
    + split; [discriminate | intros [rest H]; discriminate].
    + destruct (ascii_dec a b) as [-> | Hne].
      * rewrite IH. split; intros [rest H]; exists rest; cbn [append] in *.
        -- now rewrite H.
        -- now injection H.
      * split; [discriminate | intros [rest H]; cbn [append] in H; congruence].
Qed.

(** X22: the test that tells a URL from a file ignores the case of the
    scheme and looks at nothing after it.  [load_input] and
    [derive_output_path] both decide by it: a source is a URL exactly when
    its lower-case text starts with [http://] or [https://]. *)
Theorem scheme_test_ignores_case :
  (forall s : string, is_url (lower s) = is_url s) /\
  (forall s : string,
     is_url s = true <->
     exists rest, lower s = "http://" ++ rest \/ lower s = "https://" ++ rest) /\
  (forall scheme s : string,
     lower scheme = "http://" \/ lower scheme = "https://" ->
     is_url (scheme ++ s) = true).
Proof.
  assert (H : forall s : string,
             is_url s = true <->
             exists rest, lower s = "http://" ++ rest \/ lower s = "https://" ++ rest).
  { intros s. unfold is_url. rewrite orb_true_iff, !prefix_spec.
    split.
    - intros [[rest E] | [rest E]]; exists rest; auto.
    - intros [rest [E | E]]; [left | right]; now exists rest. }
  split; [| split; [exact H |]].
  - intros s. unfold is_url. now rewrite lower_twice.
  - intros scheme s Hs. apply H. exists (lower s). rewrite lower_app.
    destruct Hs as [-> | ->]; auto.
Qed.

End Properties.

(** * The reference runtime *)

Lemma all_chars_substring (p : ascii -> bool) (n m : nat) (s : string) :
  all_chars p s = true -> all_chars p (substring n m s) = true.
Proof.
  revert n m. induction s as [|x s IH]; intros n m H.
  - destruct n, m; reflexivity.
  - simpl in H. apply andb_true_iff in H. destruct H as [Hx H].
    destruct n as [|n]; simpl.
    + destruct m as [|m]; [reflexivity |]. simpl. now rewrite Hx, IH.
    + now apply IH.
Qed.

Lemma zeros_no_lt (n : nat) : no_lt (zeros n) = true.
Proof.
  induction n; [reflexivity | exact IHn].
Qed.

Lemma repr_finite_no_lt (m : positive) (e : Z) : no_lt (repr_finite m e) = true.
Proof.
  unfold repr_finite. destruct (shortest m e) as [d q].
  pose proof (str_int_no_lt d) as Hd.
  repeat match goal with
  | |- context [if ?c then _ else _] => destruct c
  end;
  unfold no_lt in *; rewrite ?all_chars_app;
  repeat (apply andb_true_iff; split);
  auto using all_chars_substring, zeros_no_lt, str_int_no_lt.
Qed.

(** The reference runtime writes a float without [<]. *)
Lemma reference_float_text_plain : float_text_plain (RT := reference_runtime).
Proof.
  intros f. cbn [float_repr reference_runtime]. destruct f as [s|s| |s m e]; cbn [ref_float_repr].
  - now destruct s.
  - now destruct s.
  - reflexivity.
  - unfold no_lt. rewrite all_chars_app. apply andb_true_iff. split.
    + now destruct s.
    + apply repr_finite_no_lt.
Qed.

(** * The properties at concrete inputs *)

Lemma item_without_coordinates_is_dropped_witness :
  build_wpt (RT := reference_runtime) lost = Ok None /\
  forall (now_iso : string) (before after : list json) (meta_any : json),
    build_gpx (RT := reference_runtime) now_iso (before ++ lost :: after) meta_any
    = build_gpx (RT := reference_runtime) now_iso (before ++ after) meta_any.
Proof.
  apply (proj1 (proj2 (item_without_coordinates_is_dropped (RT := reference_runtime)))
           lost); reflexivity.
Defined.

(** C3, as it is stated, fails: the location of this item is a text, so it
    gives no number for [lat] or for [lng]; the item is not dropped in
    silence, [build_wpt] raises on it and the run ends on the exception
    without a document. *)
Lemma unreadable_location_is_an_error :
  let item := JObj [("id", JStr "7"); ("title", JStr "Wall"); ("location", JStr "abc")] in
  let w := world_of [("x.json", JObj [("items", JList [statue; item])])] in
  has_coordinates item = false /\
  build_wpt (RT := reference_runtime) item = Raise AttributeError /\
  build_gpx (RT := reference_runtime) "T" [statue; item] JNull = Raise AttributeError /\
  main (RT := reference_runtime) w "T" (run_of ["x.json"]) = Uncaught AttributeError /\
  file_written (main (RT := reference_runtime) w "T" (run_of ["x.json"])) = None.
Proof.
  repeat split; vm_compute; reflexivity.
Qed.

Lemma boolean_coordinates_are_written_witness :
  has_coordinates flagged = true /\
  build_wpt (RT := reference_runtime) flagged <> Ok None /\
  exists body,
    build_wpt (RT := reference_runtime) flagged
    = Ok (Some (("  <wpt lat=" ++ DQ ++ "True" ++ DQ ++ " lon=" ++ DQ ++ "False" ++ DQ
                 ++ ">" ++ NL)
                ++ body)).
Proof.
  destruct (boolean_coordinates_are_written (RT := reference_runtime) flagged
              [("lat", JBool true); ("lng", JBool false)] true false
              eq_refl eq_refl eq_refl) as (Hc & Hn & Htext & _).
  split; [exact Hc |]. split; [exact Hn |].
  apply (Htext ""). reflexivity.
Defined.

(** C9, as it is stated, fails: the coordinates of this item are booleans
    and pass the check, but its address is a number; no waypoint is written
    for it, [build_wpt] raises [TypeError] and the run ends on the exception
    without a document. *)
Lemma boolean_coordinates_with_a_number_for_address :
  let item :=
    JObj [("id", JStr "9");
          ("location",
           JObj [("lat", JBool true); ("lng", JBool false); ("address", JInt 5)])] in
  let w := world_of [("x.json", JObj [("items", JList [item])])] in
  has_coordinates item = true /\
  build_wpt (RT := reference_runtime) item = Raise TypeError /\
  main (RT := reference_runtime) w "T" (run_of ["x.json"]) = Uncaught TypeError /\
  file_written (main (RT := reference_runtime) w "T" (run_of ["x.json"])) = None.
Proof.
  repeat split; vm_compute; reflexivity.
Qed.

Lemma read_failure_exits_1_witness :
  let w := world_of [("a.json", JObj [("items", JList [statue])])] in
  let missing := "[Errno 2] No such file or directory: 'b.json'" in
  main (RT := reference_runtime) w "T" (run_of ["a.json"; "b.json"; "c.json"])
  = SysExit 1 ("Error reading b.json: " ++ missing) /\
  exit_code (main (RT := reference_runtime) w "T" (run_of ["a.json"; "b.json"; "c.json"]))
  = 1%Z /\
  file_written (main (RT := reference_runtime) w "T" (run_of ["a.json"; "b.json"; "c.json"]))
  = None.
Proof.
  apply (read_failure_exits_1 (RT := reference_runtime) _ "T"
           (run_of ["a.json"; "b.json"; "c.json"]) ["a.json"] "b.json" ["c.json"]).
  - reflexivity.
  - repeat constructor. now exists [("items", JList [statue])], [statue].
  - reflexivity.
Defined.

Lemma waypoint_count_is_exact_witness :
  let w := world_of [("x.json", JObj [("items", JList [statue; lost; mural])])] in
  exists s all_items any_meta items,
    main (RT := reference_runtime) w "T" (run_of ["x.json"]) = Return s /\
    load_sources w ["x.json"] [] JNull = Return (all_items, any_meta) /\
    merge (RT := reference_runtime) false all_items = Ok items /\
    build_gpx (RT := reference_runtime) "T" items any_meta = Ok (gpx_text s) /\
    waypoints s = List.length (filter has_coordinates items).
Proof.
  intros w.
  assert (H : exists s, main (RT := reference_runtime) w "T" (run_of ["x.json"]) = Return s).
  { eexists. vm_compute. reflexivity. }
  destruct H as [s H]. exists s.
  destruct (waypoint_count_is_exact (RT := reference_runtime) w "T" (run_of ["x.json"]) s
              reference_float_text_plain H)
    as (all_items & any_meta & items & H1 & H2 & H3 & H4).
  exists all_items, any_meta, items. repeat split; assumption.
Defined.

Lemma dedup_keeps_first_occurrences_witness :
  merge (RT := reference_runtime) false [statue; mural; copy_of_statue; lost; lost_again]
  = Ok [statue; mural; lost] /\
  merge (RT := reference_runtime) true [statue; copy_of_statue]
  = Ok [statue; copy_of_statue].
Proof.
  split.
  - rewrite (proj1 (dedup_keeps_first_occurrences (RT := reference_runtime))
               [statue; mural; copy_of_statue; lost; lost_again]).
    reflexivity.
  - apply (proj1 (proj2 (dedup_keeps_first_occurrences (RT := reference_runtime)))).
Defined.

Lemma dedup_key_cases_witness :
  item_dedup_key (RT := reference_runtime) mural = Ok (KeyId "2") /\
  item_dedup_key (RT := reference_runtime)
    (JObj [("title", JStr "Fresco");
           ("location", JObj [("lat", JInt 48); ("lng", JBool true)])])
  = Ok (KeyGeo (Some "48.0000000") (Some "1.0000000") (JStr "Fresco")) /\
  item_dedup_key (RT := reference_runtime) fresco
  = Ok (KeyGeo (Some "48.8500000") (Some "2.3500000") (JStr "Fresco")) /\
  item_dedup_key (RT := reference_runtime) lost = Ok (KeyGeo None None (JStr "Lost")) /\
  dedup (RT := reference_runtime) [lost; lost_again] = Ok [lost] /\
  build_wpt (RT := reference_runtime) lost = Ok None /\
  build_wpt (RT := reference_runtime) lost_again = Ok None.
Proof.
  destruct (dedup_key_cases (RT := reference_runtime)) as (Hid & Hgeo & _ & _ & Hsame).
  split; [apply (Hid mural (JInt 2)); reflexivity |].
  split.
  { rewrite (Hgeo (JObj [("title", JStr "Fresco");
                         ("location", JObj [("lat", JInt 48); ("lng", JBool true)])])
               [("lat", JInt 48); ("lng", JBool true)] eq_refl eq_refl).
    vm_compute. reflexivity. }
  split.
  { rewrite (Hgeo fresco [("lat", JFloat f48_85); ("lng", JFloat f2_35)] eq_refl eq_refl).
    vm_compute. reflexivity. }
  split.
  { rewrite (Hgeo lost [] eq_refl eq_refl). reflexivity. }
  apply (Hsame lost lost_again "Lost");
    exists JNull, JNull; repeat split; reflexivity.
Defined.

(** C5, as it is stated, fails: these items have no id and no key.  The
    location of the first is a text, and reading [lat] off it raises; the
    latitude of the second is an int past the range of a float, and
    formatting it raises.  A run that deduplicates ends on the exception;
    under [--no-dedup] the second item is written. *)
Lemma item_without_a_key :
  let wall := JObj [("title", JStr "Wall"); ("location", JStr "abc")] in
  let far := JObj [("title", JStr "Far");
                   ("location", JObj [("lat", JInt (2 ^ 1024)); ("lng", JInt 0)])] in
  let w := world_of [("x.json", JObj [("items", JList [far])])] in
  item_dedup_key (RT := reference_runtime) wall = Raise AttributeError /\
  item_dedup_key (RT := reference_runtime) far = Raise OverflowError /\
  main (RT := reference_runtime) w "T" (run_of ["x.json"]) = Uncaught OverflowError /\
  exit_code
    (main (RT := reference_runtime) w "T"
       {| sources := ["x.json"]; output := None; no_dedup := true |}) = 0%Z.
Proof.
  repeat split; vm_compute; reflexivity.
Qed.

Lemma free_text_is_escaped_witness :
  exists lat lon rest,
    wpt_open "1" "2"
    ++ wpt_body (RT := reference_runtime) (JStr "<A & B>") (JStr "") (JStr "") (JStr "")
         (JStr "") (JStr "") (JInt 2) ""
    = wpt_open lat lon ++ "    <name>&lt;A &amp; B&gt;</name>" ++ rest.
Proof.
  apply (proj1 (proj2 (proj2 (free_text_is_escaped (RT := reference_runtime)))) mural);
    reflexivity.
Defined.

Lemma output_path_derivation_witness :
  derive_output_path (RT := reference_runtime)
    ["https://example.com/data/paris.json?page=1"; "b.json"] None
  = Ok (path "paris_merged.gpx") /\
  derive_output_path (RT := reference_runtime) ["https://example.com"] None
  = Ok (path "merged.gpx") /\
  derive_output_path (RT := reference_runtime) ["data/a.tar.json"] (Some "")
  = Ok (path "data/a.tar.gpx").
Proof.
  split; [| split].
  - apply (proj1 (proj2 (output_path_derivation (RT := reference_runtime)))
             "https://example.com/data/paris.json?page=1" ["b.json"] None "/data/paris.json");
      reflexivity.
  - apply (proj1 (proj2 (output_path_derivation (RT := reference_runtime)))
             "https://example.com" [] None ""); reflexivity.
  - apply (proj1 (proj2 (proj2 (output_path_derivation (RT := reference_runtime))))
             "data/a.tar.json" [] (Some "")); [reflexivity | reflexivity | discriminate].
Defined.

Lemma meta_is_first_present_witness :
  let w := world_of
             [("a.json", JObj [("items", JList [statue])]);
              ("b.json", JObj [("items", JList []); ("@meta", JObj [("generator", JStr "B")])]);
              ("c.json", JObj [("items", JList []); ("@meta", JObj [("generator", JStr "C")])])] in
  first_meta (map (doc_meta w) ["a.json"; "b.json"; "c.json"])
  = JObj [("generator", JStr "B")] /\
  exists s all_items items,
    main (RT := reference_runtime) w "T" (run_of ["a.json"; "b.json"; "c.json"]) = Return s /\
    load_sources w ["a.json"; "b.json"; "c.json"] [] JNull
    = Return (all_items, JObj [("generator", JStr "B")]) /\
    merge (RT := reference_runtime) false all_items = Ok items /\
    build_gpx (RT := reference_runtime) "T" items (JObj [("generator", JStr "B")])
    = Ok (gpx_text s).
Proof.
  intros w. split; [reflexivity |].
  assert (H : exists s, main (RT := reference_runtime) w "T"
                          (run_of ["a.json"; "b.json"; "c.json"]) = Return s).
  { eexists. vm_compute. reflexivity. }
  destruct H as [s H]. exists s.
  destruct (proj1 (meta_is_first_present (RT := reference_runtime)) w "T"
              (run_of ["a.json"; "b.json"; "c.json"]) s H)
    as (all_items & items & H1 & H2 & H3).
  exists all_items, items. repeat split; assumption.
Defined.

(** C2, as it is stated, fails: the first document has no [@meta], and the
    meta the run keeps is the second document's; the creator written is the
    second document's generator, and another generator in the second
    document gives another text. *)
Lemma later_meta_is_used :
  let first := JObj [("items", JList [statue])] in
  let second g := JObj [("items", JList []); ("@meta", JObj [("generator", JStr g)])] in
  let w g := world_of [("a.json", first); ("b.json", second g)] in
  doc_meta (w "B") "a.json" = JNull /\
  load_sources (w "B") ["a.json"; "b.json"] [] JNull
  = Return ([statue], JObj [("generator", JStr "B")]) /\
  file_written (main (RT := reference_runtime) (w "B") "T" (run_of ["a.json"; "b.json"]))
  = Some (path "a_merged.gpx",
          gpx_head (RT := reference_runtime) "T" (JStr "B")
          ++ wpt_open "48.85" "2.35"
          ++ wpt_body (RT := reference_runtime) (JStr "Statue") (JStr "") (JStr "")
               (JStr "mural") (JStr "") (JStr "") (JStr "1") ""
          ++ gpx_tail) /\
  file_written (main (RT := reference_runtime) (w "B") "T" (run_of ["a.json"; "b.json"]))
  <> file_written (main (RT := reference_runtime) (w "C") "T" (run_of ["a.json"; "b.json"])).
Proof.
  repeat split; try (vm_compute; reflexivity).
  vm_compute. discriminate.
Qed.

Lemma bad_items_exits_2_witness :
  let w := world_of [("a.json", JObj [("items", JList [statue])]);
                     ("b.json", JObj [("items", JStr "none")])] in
  main (RT := reference_runtime) w "T" (run_of ["a.json"; "b.json"])
  = SysExit 2 "b.json: items[] missing or not a list".
Proof.
  apply (bad_items_exits_2 (RT := reference_runtime) _ "T" (run_of ["a.json"; "b.json"])
           ["a.json"] "b.json" [] [("items", JStr "none")]); try reflexivity.
  repeat constructor. now exists [("items", JList [statue])], [statue].
Defined.

Lemma coordinates_are_written_witness :
  (exists body,
     build_wpt (RT := reference_runtime) statue
     = Ok (Some (("  <wpt lat=" ++ DQ ++ "48.85" ++ DQ ++ " lon=" ++ DQ ++ "2.35" ++ DQ
                  ++ ">" ++ NL)
                 ++ body))) /\
  (exists body,
     build_wpt (RT := reference_runtime) mural
     = Ok (Some (("  <wpt lat=" ++ DQ ++ "1" ++ DQ ++ " lon=" ++ DQ ++ "2" ++ DQ
                  ++ ">" ++ NL)
                 ++ body))).
Proof.
  split.
  - apply (proj1 (coordinates_are_written (RT := reference_runtime) statue
                    [("lat", JFloat f48_85); ("lng", JFloat f2_35)] ""
                    eq_refl eq_refl eq_refl eq_refl)).
  - apply (proj1 (coordinates_are_written (RT := reference_runtime) mural
                    [("lat", JInt 1); ("lng", JInt 2)] ""
                    eq_refl eq_refl eq_refl eq_refl)).
Defined.

Lemma same_key_collapses_witness :
  set_key_of (RT := reference_runtime) fresco
  = Ok (SetGeo (Some "48.8500000") (Some "2.3500000") (HStr "Fresco")) /\
  dedup (RT := reference_runtime) [fresco; fresco_nearby] = Ok [fresco].
Proof.
  split; [reflexivity |].
  apply (same_key_collapses (RT := reference_runtime) fresco fresco_nearby
           (SetGeo (Some "48.8500000") (Some "2.3500000") (HStr "Fresco")));
    reflexivity.
Defined.

(** The end-to-end scenario.  [x.json] holds one item, a statue at 48.85,
    2.35 of type mural; the run writes [x.gpx] with one waypoint. *)
Example end_to_end :
  main (RT := reference_runtime)
    (world_of [("x.json", JObj [("items", JList [statue])])]) "T" (run_of ["x.json"])
  = Return
      {| out_path := path "x.gpx";
         gpx_text :=
           gpx_head (RT := reference_runtime) "T" (JStr "json2gpx")
           ++ "  <wpt lat=" ++ DQ ++ "48.85" ++ DQ ++ " lon=" ++ DQ ++ "2.35" ++ DQ ++ ">" ++ NL
           ++ "    <name>Statue</name>" ++ NL
           ++ "    <desc></desc>" ++ NL
           ++ "    <type>mural</type>" ++ NL
           ++ "    <extensions>" ++ NL
           ++ "      <sa:id>1</sa:id>" ++ NL
           ++ "    </extensions>" ++ NL
           ++ "  </wpt>" ++ NL
           ++ "</gpx>" ++ NL;
         waypoints := 1 |}.
Proof.
  vm_compute. reflexivity.
Qed.

Lemma clock_only_in_time_witness :
  exists before after : string,
    forall now_iso' : string,
      build_gpx (RT := reference_runtime) now_iso' [statue] JNull
      = Ok (before ++ "<time>" ++ esc (RT := reference_runtime) (JStr now_iso')
            ++ "</time>" ++ after).
Proof.
  eapply (clock_only_in_time (RT := reference_runtime) "T" [statue] JNull).
  vm_compute. reflexivity.
Defined.

Lemma waypoints_follow_the_items_witness :
  exists gpx wx wy : string,
    build_gpx (RT := reference_runtime) "T" [statue; lost; mural] JNull = Ok gpx /\
    build_wpt (RT := reference_runtime) statue = Ok (Some wx) /\
    build_wpt (RT := reference_runtime) mural = Ok (Some wy) /\
    exists a b c : string, gpx = a ++ wx ++ b ++ wy ++ c.
Proof.
  eexists _, _, _.
  split; [vm_compute; reflexivity |].
  split; [vm_compute; reflexivity |].
  split; [vm_compute; reflexivity |].
  eapply (waypoints_follow_the_items (RT := reference_runtime)
            "T" [] statue [lost] mural [] JNull); vm_compute; reflexivity.
Defined.

Lemma dedup_keeps_one_item_per_key_witness :
  dedup (RT := reference_runtime) [statue; copy_of_statue; mural] = Ok [statue; mural] /\
  subsequence [statue; mural] [statue; copy_of_statue; mural] /\
  exists keys kept_keys,
    map_result (set_key_of (RT := reference_runtime)) [statue; copy_of_statue; mural]
    = Ok keys /\
    map_result (set_key_of (RT := reference_runtime)) [statue; mural] = Ok kept_keys /\
    NoDup kept_keys /\
    forall k, In k kept_keys <-> In k keys.
Proof.
  split; [reflexivity |].
  apply (dedup_keeps_one_item_per_key (RT := reference_runtime)). reflexivity.
Defined.

Lemma ids_are_compared_as_texts_witness :
  dedup (RT := reference_runtime)
    [JObj [("id", JInt 1); ("title", JStr "One")]; JObj [("id", JStr "1")]]
  = Ok [JObj [("id", JInt 1); ("title", JStr "One")]].
Proof.
  apply (proj1 (proj1 (ids_are_compared_as_texts (RT := reference_runtime))
                  (JObj [("id", JInt 1); ("title", JStr "One")]) (JObj [("id", JStr "1")])
                  (JInt 1) (JStr "1") eq_refl eq_refl eq_refl eq_refl)).
  reflexivity.
Defined.

Lemma key_errors_stop_deduplication_only_witness :
  set_key_of (RT := reference_runtime) (JObj [("title", JList [JStr "a"])])
  = Raise TypeError /\
  (exists e', merge (RT := reference_runtime) false
                [statue; JObj [("title", JList [JStr "a"])]] = Raise e') /\
  merge (RT := reference_runtime) true [statue; JObj [("title", JList [JStr "a"])]]
  = Ok [statue; JObj [("title", JList [JStr "a"])]].
Proof.
  assert (H : set_key_of (RT := reference_runtime) (JObj [("title", JList [JStr "a"])])
              = Raise TypeError).
  { apply (proj2 (key_errors_stop_deduplication_only (RT := reference_runtime))
             (JObj [("title", JList [JStr "a"])]) JNull JNull (JList [JStr "a"]) None None);
      try reflexivity.
    left. now eexists. }
  split; [exact H |].
  apply (proj1 (key_errors_stop_deduplication_only (RT := reference_runtime))
           [statue; JObj [("title", JList [JStr "a"])]]
           (JObj [("title", JList [JStr "a"])]) TypeError); [| exact H].
  right. now left.
Defined.

Lemma url_output_is_a_bare_name_witness :
  exists nm st : string,
    derive_output_path (RT := reference_runtime)
      ["https://example.org/maps/paris.json?page=2"; "b.json"] None
    = Ok {| root := ""; parts := [nm] |} /\
    path_str {| root := ""; parts := [nm] |} = nm /\
    has_char "/" nm = false /\
    nm = st ++ "_merged.gpx" /\ st <> "".
Proof.
  apply (url_output_is_a_bare_name (RT := reference_runtime)
           "https://example.org/maps/paris.json?page=2" ["b.json"] None "/maps/paris.json");
    reflexivity.
Defined.

Lemma gpx_source_is_overwritten_witness :
  derive_output_path (RT := reference_runtime) ["old/track.gpx"] None
  = Ok (path "old/track.gpx").
Proof.
  apply (proj1 (gpx_source_is_overwritten (RT := reference_runtime)) "old/track.gpx");
    [reflexivity | discriminate | reflexivity].
Defined.

Lemma sources_are_merged_in_order_witness :
  exists s : Saved,
    main (RT := reference_runtime)
      (world_of [("a.json", JObj [("items", JList [statue])]);
                 ("b.json", JObj [("items", JList [copy_of_statue; mural])])])
      "T" (run_of ["a.json"; "b.json"]) = Return s /\
    exists items : list json,
      merge (RT := reference_runtime) false [statue; copy_of_statue; mural] = Ok items /\
      subsequence items [statue; copy_of_statue; mural] /\
      build_gpx (RT := reference_runtime) "T" items JNull = Ok (gpx_text s).
Proof.
  eexists. split; [vm_compute; reflexivity |].
  destruct (sources_are_merged_in_order (RT := reference_runtime)
              (world_of [("a.json", JObj [("items", JList [statue])]);
                         ("b.json", JObj [("items", JList [copy_of_statue; mural])])])
              "T" (run_of ["a.json"; "b.json"]) _ eq_refl)
    as (_ & items & Hm & Hs & _ & Hg).
  exists items. split; [exact Hm |]. split; [exact Hs | exact Hg].
Defined.

Lemma run_stops_at_the_first_refused_source_witness :
  main (RT := reference_runtime)
    (world_of [("a.json", JObj [("items", JList [statue])]); ("b.json", JList [statue])])
    "T" (run_of ["a.json"; "b.json"; "c.json"])
  = Uncaught AttributeError /\
  main (RT := reference_runtime)
    (world_of [("a.json", JObj [("items", JList [statue])]); ("b.json", JList [statue]);
               ("c.json", JObj [("items", JList [mural])])])
    "T" (run_of ["a.json"; "b.json"; "c.json"])
  = main (RT := reference_runtime)
      (world_of [("a.json", JObj [("items", JList [statue])]); ("b.json", JList [statue])])
      "T" (run_of ["a.json"; "b.json"; "c.json"]).
Proof.
  destruct (run_stops_at_the_first_refused_source (RT := reference_runtime)
              (world_of [("a.json", JObj [("items", JList [statue])]);
                         ("b.json", JList [statue])])
              (world_of [("a.json", JObj [("items", JList [statue])]);
                         ("b.json", JList [statue]);
                         ("c.json", JObj [("items", JList [mural])])])
              "T" (run_of ["a.json"; "b.json"; "c.json"])
              ["a.json"] "b.json" ["c.json"]) as (_ & _ & Hdata & Hsame).
  - reflexivity.
  - repeat constructor. now exists [("items", JList [statue])], [statue].
  - intros (d & l & H & _). vm_compute in H. discriminate.
  - intros s [[<- | []] | ->]; reflexivity.
  - split; [| exact Hsame].
    apply (Hdata (JList [statue])); [reflexivity | discriminate].
Defined.
